(** * pdf-wizard-instant: the document-assembly functions of
      [src/utils/conversionUtils.ts], embedded as Rocq functions, with the
      catalog, the uploader and the page that call them.

    JavaScript numbers are modelled as exact rationals ([Q]): rounding of
    IEEE doubles is not part of the model.  Strings are sequences of 8-bit
    characters.  The two PDF libraries the code calls (jsPDF and pdf-lib) and
    the browser are outside the repository; the parts of them the code relies
    on are modelled in [JsPDF], [PdfLib] and [Browser] below. *)

From Stdlib Require Import QArith ZArith List String Ascii Lia Lqa Bool.
From Stdlib Require Import Sorted Permutation DecimalString DecimalNat.
Import ListNotations.

Local Open Scope string_scope.
Local Open Scope list_scope.
Local Open Scope Q_scope.

(** ** The browser: files, images, the console and the progress callback *)

Module Browser.

(** What becomes of a loaded image in the rest of the [try] block of the
    image loop.  The calls that can throw come in this order: drawing on
    the canvas and [canvas.toDataURL] (a tainted canvas), then, once the
    page has been added, [pdf.addImage] (an image the canvas could not
    hold gives an empty data URL, which jsPDF refuses), then [pdf.text] for
    the caption.  The first one that throws ends the block. *)
Inductive Embedding : Type :=
| Embeds
| CanvasThrows
| AddImageThrows
| TextThrows.

(** A decoded [HTMLImageElement]: pixel width and height (an image that
    loads has at least one pixel each way), its pixel data, and how far
    the canvas and jsPDF get with it. *)
Record HTMLImage : Type := mkImage
  { img_width : positive;
    img_height : positive;
    img_pixels : string;
    img_embedding : Embedding }.

(** What the code can observe from outside one call: the values passed to
    [onProgress] and the messages given to [console.error], oldest first. *)
Record Effects : Type := mkEffects
  { progressCalls : list Q; consoleErrors : list string }.

Definition silent : Effects :=
  {| progressCalls := []; consoleErrors := [] |}.

(** [if (onProgress) { onProgress(value) }]; the flag says whether the
    caller supplied a callback. *)
Definition report (onProgress : bool) (value : Q) (fx : Effects) : Effects :=
  if onProgress
  then {| progressCalls := progressCalls fx ++ [value];
          consoleErrors := consoleErrors fx |}
  else fx.

Definition console_error (message : string) (fx : Effects) : Effects :=
  {| progressCalls := progressCalls fx;
     consoleErrors := consoleErrors fx ++ [message] |}.

(** A settled promise: resolved with a value, or rejected. *)
Inductive Exception : Type :=
| Error (message : string)
| ReadOrParseFailure.

Inductive Outcome (A : Type) : Type :=
| Returned (value : A)
| Thrown (e : Exception).

Arguments Returned {A}.
Arguments Thrown {A}.

End Browser.
Import Browser.

(** ** jsPDF, as far as the code uses it *)

Module JsPDF.

(** [canvas.toDataURL(mimeType, quality)] of a canvas holding the image. *)
Record DataURL : Type := mkDataURL
  { encoded : HTMLImage; mimeType : string; quality : Q }.

Inductive Drawing : Type :=
| Image (imageData : DataURL) (format : string) (x y w h : Q)
| Text (text : string) (x y : Q) (fontSize : Q) (textColor : Z * Z * Z)
| Line (x1 y1 x2 y2 : Q) (lineWidth : Q).

Definition Page : Type := list Drawing.

(** A jsPDF document always has a current page, the last one; drawing
    calls go to it and use the font size, colour and line width in force. *)
Record jsPDF : Type := mkPdf
  { pageSize : Q * Q;
    finished : list Page;
    current : Page;
    fontSize : Q;
    textColor : Z * Z * Z;
    lineWidth : Q }.

(** [new jsPDF()]: one blank A4 portrait page, measured in millimetres
    (595.28 x 841.89 points over the scale factor 72/25.4). *)
Definition scaleFactor : Q := 72 / (254 # 10).

Definition create : jsPDF :=
  {| pageSize := ((59528 # 100) / scaleFactor, (84189 # 100) / scaleFactor);
     finished := [];
     current := [];
     fontSize := 16;
     textColor := (0, 0, 0)%Z;
     lineWidth := 200025 # 1000000 |}.

Definition getWidth (pdf : jsPDF) : Q := fst (pageSize pdf).
Definition getHeight (pdf : jsPDF) : Q := snd (pageSize pdf).

Definition draw (d : Drawing) (pdf : jsPDF) : jsPDF :=
  {| pageSize := pageSize pdf; finished := finished pdf;
     current := current pdf ++ [d];
     fontSize := fontSize pdf; textColor := textColor pdf;
     lineWidth := lineWidth pdf |}.

Definition addPage (pdf : jsPDF) : jsPDF :=
  {| pageSize := pageSize pdf;
     finished := finished pdf ++ [current pdf];
     current := [];
     fontSize := fontSize pdf; textColor := textColor pdf;
     lineWidth := lineWidth pdf |}.

Definition setFontSize (s : Q) (pdf : jsPDF) : jsPDF :=
  {| pageSize := pageSize pdf; finished := finished pdf;
     current := current pdf;
     fontSize := s; textColor := textColor pdf;
     lineWidth := lineWidth pdf |}.

Definition setTextColor (r g b : Z) (pdf : jsPDF) : jsPDF :=
  {| pageSize := pageSize pdf; finished := finished pdf;
     current := current pdf;
     fontSize := fontSize pdf; textColor := (r, g, b);
     lineWidth := lineWidth pdf |}.

Definition setLineWidth (w : Q) (pdf : jsPDF) : jsPDF :=
  {| pageSize := pageSize pdf; finished := finished pdf;
     current := current pdf;
     fontSize := fontSize pdf; textColor := textColor pdf;
     lineWidth := w |}.

Definition addImage (imageData : DataURL) (format : string)
    (x y w h : Q) (pdf : jsPDF) : jsPDF :=
  draw (Image imageData format x y w h) pdf.

Definition text (s : string) (x y : Q) (pdf : jsPDF) : jsPDF :=
  draw (Text s x y (fontSize pdf) (textColor pdf)) pdf.

Definition line (x1 y1 x2 y2 : Q) (pdf : jsPDF) : jsPDF :=
  draw (Line x1 y1 x2 y2 (lineWidth pdf)) pdf.

(** The pages [pdf.output('blob')] serialises, first page first. *)
Definition output (pdf : jsPDF) : list Page := finished pdf ++ [current pdf].

End JsPDF.

(** ** pdf-lib, as far as the code uses it *)

Module PdfLib.

(** What a page shows: the content stream it was parsed with, then
    whatever [drawText] added on top. *)
Inductive Content : Type :=
| Original (stream : string)
| DrawText (text : string) (x y size : Q) (color : Q * Q * Q).

Record PDFPage : Type := mkPage
  { width : Q; height : Q; content : list Content }.

(** A [PDFDocument] is its page list; [PDFDocument.create()] has none. *)
Definition PDFDocument : Type := list PDFPage.

Definition create : PDFDocument := [].

Definition getPageCount (pdf : PDFDocument) : nat := List.length pdf.

Definition getPageIndices (pdf : PDFDocument) : list nat :=
  seq 0 (getPageCount pdf).

(** [target.copyPages(source, indices)] hands back copies of the pages at
    [indices], each with the size and content of its model (the code only
    asks for indices the source has). *)
Definition copyPages (source : PDFDocument) (indices : list nat)
  : list PDFPage :=
  flat_map (fun i => match nth_error source i with
                     | Some p => [p]
                     | None => []
                     end) indices.

(** [doc.addPage(page)] appends the page and hands back a handle on it:
    its position in the document. *)
Definition addPage (page : PDFPage) (doc : PDFDocument)
  : PDFDocument * nat :=
  (doc ++ [page], List.length doc).

Definition getSize (doc : PDFDocument) (handle : nat) : Q * Q :=
  match nth_error doc handle with
  | Some p => (width p, height p)
  | None => (0, 0)
  end.

Fixpoint alter (f : PDFPage -> PDFPage) (handle : nat) (doc : PDFDocument)
  : PDFDocument :=
  match doc, handle with
  | [], _ => []
  | p :: rest, O => f p :: rest
  | p :: rest, S h => p :: alter f h rest
  end.

(** [page.drawText(text, { x, y, size, color })] on the page behind
    [handle], changed in place inside its document. *)
Definition drawText (s : string) (x y size : Q) (color : Q * Q * Q)
    (handle : nat) (doc : PDFDocument) : PDFDocument :=
  alter (fun p => {| width := width p; height := height p;
                     content := content p ++ [DrawText s x y size color] |})
        handle doc.

(** The page [doc.addPage()] creates when given nothing: blank A4. *)
Definition defaultPage : PDFPage :=
  {| width := 59528 # 100; height := 84189 # 100; content := [] |}.

(** [doc.save()] with no options: pdf-lib's [SaveOptions.addDefaultPage]
    defaults to [true], so a document without any page is given one blank
    page before it is serialised.  The result is the page list written. *)
Definition save (doc : PDFDocument) : list PDFPage :=
  match doc with
  | [] => fst (addPage defaultPage doc)
  | _ :: _ => doc
  end.

End PdfLib.

(** ** The data the functions work on *)

(** A [File] handed over by the upload layer.  [contents] is what
    [file.text()] resolves to, and what decoding [file.arrayBuffer()] as
    UTF-8 gives; it is [None] when reading the file rejects.  [asImage] is
    what an [Image] element loads from [URL.createObjectURL(file)] ([None]
    when [onerror] fires), [asPdf] the document [PDFDocument.load] parses
    from the bytes ([None] when reading or parsing throws). *)
Record File : Type := mkFile
  { mime : string;
    contents : option string;
    asImage : option HTMLImage;
    asPdf : option PdfLib.PDFDocument }.

(** [interface UploadedFile].  [preview], when set, is a URL; it is modelled
    by what an [Image] element loads from it. *)
Record UploadedFile : Type := mkUploadedFile
  { id : string;
    file : File;
    preview : option (option HTMLImage);
    name : string;
    size : string;
    type : string }.

(** A [Blob] of type application/pdf, as one of the two libraries wrote it. *)
Inductive Blob : Type :=
| JsPdfBlob (pages : list JsPDF.Page)
| PdfLibBlob (pages : list PdfLib.PDFPage).

Definition pageCount (b : Blob) : nat :=
  match b with
  | JsPdfBlob pages => List.length pages
  | PdfLibBlob pages => List.length pages
  end.

(** What a call leaves behind: its effects and how its promise settled. *)
Definition Result : Type := Effects * Outcome Blob.

(** [for (let i = 0; i < files.length; i++) { const file = files[i]; ... }] *)
Fixpoint forEachIndexed {A St : Type} (body : nat -> A -> St -> St)
    (i : nat) (items : list A) (s : St) : St :=
  match items with
  | [] => s
  | item :: rest => forEachIndexed body (S i) rest (body i item s)
  end.

(** [(i / files.length) * 90] *)
Definition ninetyPercentOf (i n : nat) : Q :=
  inject_Z (Z.of_nat i) / inject_Z (Z.of_nat n) * 90.

(** Template literals print a number in decimal. *)
Definition toString (n : nat) : string :=
  NilEmpty.string_of_uint (Nat.to_uint n).

(** [s.includes(sub)] and [s.endsWith(suffix)] *)
Definition includes (s sub : string) : bool :=
  match index 0 sub s with
  | Some _ => true
  | None => false
  end.

Definition endsWith (s suffix : string) : bool :=
  let n := String.length suffix in
  (n <=? String.length s)%nat
  && (substring (String.length s - n) n s =? suffix)%string.

(** ** Images to PDF *)

Module Images.

Definition margin : Q := 10.

Record Placement : Type := mkPlacement
  { finalWidth : Q; finalHeight : Q; x : Q; y : Q }.

(** The placement [convertImagesToPDF] computes for one image on a page of
    the given size. *)
Definition placeImage (pageWidth pageHeight imgWidth imgHeight : Q)
  : Placement :=
  let imgAspectRatio := imgWidth / imgHeight in
  let pageAspectRatio :=
    (pageWidth - 2 * margin) / (pageHeight - 2 * margin) in
  let size :=
    if Qlt_le_dec pageAspectRatio imgAspectRatio
    then
      let finalWidth := pageWidth - 2 * margin in
      let finalHeight := finalWidth / imgAspectRatio in
      (finalWidth, finalHeight)
    else
      let finalHeight := pageHeight - 2 * margin in
      let finalWidth := finalHeight * imgAspectRatio in
      (finalWidth, finalHeight) in
  {| finalWidth := fst size;
     finalHeight := snd size;
     x := (pageWidth - fst size) / 2;
     y := (pageHeight - snd size) / 2 |}.

(** [img.src = file.preview || URL.createObjectURL(file.file)], awaited:
    the image when [onload] fires, [None] when [onerror] does. *)
Definition loadImage (item : UploadedFile) : option HTMLImage :=
  match preview item with
  | Some loaded => loaded
  | None => asImage (file item)
  end.

Definition State : Type := JsPDF.jsPDF * bool * Effects.

(** How far the [try] block gets with an image: past the canvas, past
    [pdf.addImage], to its end. *)
Definition survivesCanvas (e : Embedding) : bool :=
  match e with
  | CanvasThrows => false
  | _ => true
  end.

Definition survivesAddImage (e : Embedding) : bool :=
  match e with
  | CanvasThrows | AddImageThrows => false
  | _ => true
  end.

Definition embeds (e : Embedding) : bool :=
  match e with
  | Embeds => true
  | _ => false
  end.

(** What the [try] block does to the document and to [isFirstPage] once
    the image has loaded, up to its end or to the call that throws. *)
Definition drawImage (pageWidth pageHeight : Q) (item : UploadedFile)
    (img : HTMLImage) (s : JsPDF.jsPDF * bool) : JsPDF.jsPDF * bool :=
  let '(pdf, isFirstPage) := s in
  let place := placeImage pageWidth pageHeight
                 (inject_Z (Zpos (img_width img)))
                 (inject_Z (Zpos (img_height img))) in
  if negb (survivesCanvas (img_embedding img)) then (pdf, isFirstPage)
  else
    let imgData := JsPDF.mkDataURL img "image/jpeg" (95 # 100) in
    let pdf := if isFirstPage then pdf else JsPDF.addPage pdf in
    if negb (survivesAddImage (img_embedding img)) then (pdf, false)
    else
      let pdf := JsPDF.addImage imgData "JPEG" (x place) (y place)
                   (finalWidth place) (finalHeight place) pdf in
      let pdf := JsPDF.setFontSize 8 pdf in
      let pdf := JsPDF.setTextColor 128 128 128 pdf in
      if negb (embeds (img_embedding img)) then (pdf, false)
      else
        let pdf := JsPDF.text (name item) margin (pageHeight - 5) pdf in
        (pdf, false).

(** One turn of the loop: the [try] block and its [catch], which logs
    whatever was thrown, by the load or by a call after it. *)
Definition body (onProgress : bool) (n : nat) (pageWidth pageHeight : Q)
    (i : nat) (item : UploadedFile) (s : State) : State :=
  let '(doc, fx) := s in
  let fx := report onProgress (ninetyPercentOf i n) fx in
  match loadImage item with
  | Some img =>
      let doc := drawImage pageWidth pageHeight item img doc in
      if embeds (img_embedding img) then (doc, fx)
      else
        (doc,
         console_error ("Error processing image " ++ name item ++ ":") fx)
  | None =>
      (doc, console_error ("Error processing image " ++ name item ++ ":") fx)
  end.

(** Whether the turn of an item gets as far as its page, and whether it
    gets to its end without a throw. *)
Definition reachesPage (item : UploadedFile) : bool :=
  match loadImage item with
  | Some img => survivesCanvas (img_embedding img)
  | None => false
  end.

Definition completes (item : UploadedFile) : bool :=
  match loadImage item with
  | Some img => embeds (img_embedding img)
  | None => false
  end.

Definition convertImagesToPDF (files : list UploadedFile) (onProgress : bool)
  : Result :=
  let pdf := JsPDF.create in
  let pageWidth := JsPDF.getWidth pdf in
  let pageHeight := JsPDF.getHeight pdf in
  let '(pdf, _, fx) :=
    forEachIndexed (body onProgress (List.length files) pageWidth pageHeight)
      0 files (pdf, true, silent) in
  let fx := report onProgress 100 fx in
  (fx, Returned (JsPdfBlob (JsPDF.output pdf))).

End Images.

(** ** Merging and splitting PDFs *)

Module Pdfs.

Definition State : Type := PdfLib.PDFDocument * Effects.

(** [copiedPages.forEach((page) => mergedPdf.addPage(page))] *)
Definition addAll (copiedPages : list PdfLib.PDFPage)
    (mergedPdf : PdfLib.PDFDocument) : PdfLib.PDFDocument :=
  fold_left (fun doc page => fst (PdfLib.addPage page doc))
            copiedPages mergedPdf.

Definition appendDocument (pdf mergedPdf : PdfLib.PDFDocument)
  : PdfLib.PDFDocument :=
  let copiedPages := PdfLib.copyPages pdf (PdfLib.getPageIndices pdf) in
  addAll copiedPages mergedPdf.

Definition mergeBody (onProgress : bool) (n : nat)
    (i : nat) (item : UploadedFile) (s : State) : State :=
  let '(mergedPdf, fx) := s in
  let fx := report onProgress (ninetyPercentOf i n) fx in
  match asPdf (file item) with
  | Some pdf => (appendDocument pdf mergedPdf, fx)
  | None =>
      (mergedPdf,
       console_error ("Error processing PDF " ++ name item ++ ":") fx)
  end.

Definition mergePDFs (files : list UploadedFile) (onProgress : bool)
  : Result :=
  let mergedPdf := PdfLib.create in
  let '(mergedPdf, fx) :=
    forEachIndexed (mergeBody onProgress (List.length files))
      0 files (mergedPdf, silent) in
  let fx := report onProgress 100 fx in
  (fx, Returned (PdfLibBlob (PdfLib.save mergedPdf))).

(** [`Page ${i + 1} of ${pageCount}`] *)
Definition pageLabel (i pageCount : nat) : string :=
  "Page " ++ toString (i + 1) ++ " of " ++ toString pageCount.

(** One turn of the loop of [splitPDF]. [const [copiedPage] = ...] takes
    the first page handed back; were there none, [addPage(undefined)] would
    make a blank page. *)
Definition splitBody (onProgress : bool) (pdf : PdfLib.PDFDocument)
    (pageCount : nat) (i : nat) (s : State) : State :=
  let '(resultPdf, fx) := s in
  let fx := report onProgress (ninetyPercentOf i pageCount) fx in
  let copiedPage := hd PdfLib.defaultPage (PdfLib.copyPages pdf [i]) in
  let '(resultPdf, page) := PdfLib.addPage copiedPage resultPdf in
  let '(width, height) := PdfLib.getSize resultPdf page in
  let resultPdf :=
    PdfLib.drawText (pageLabel i pageCount) 50 (height - 50) 12
      (5 # 10, 5 # 10, 5 # 10) page resultPdf in
  (resultPdf, fx).

(** [for (let i = 0; i < count; i++) { ... }] *)
Definition forCount {St : Type} (body : nat -> St -> St) (count : nat)
    (s : St) : St :=
  fold_left (fun s i => body i s) (seq 0 count) s.

Definition splitPDF (files : list UploadedFile) (onProgress : bool)
  : Result :=
  match files with
  | [] => (silent, Thrown (Error "No PDF file provided"))
  | item :: _ =>
      match asPdf (file item) with
      | None => (silent, Thrown ReadOrParseFailure)
      | Some pdf =>
          let pageCount := PdfLib.getPageCount pdf in
          let resultPdf := PdfLib.create in
          let '(resultPdf, fx) :=
            forCount (splitBody onProgress pdf pageCount)
              pageCount (resultPdf, silent) in
          let fx := report onProgress 100 fx in
          (fx, Returned (PdfLibBlob (PdfLib.save resultPdf)))
      end
  end.

End Pdfs.

(** ** Text and Word to PDF *)

Module Texts.

Definition margin : Q := 20.
Definition lineHeight : Q := 6.

(** The character classes of the two regular expressions of
    [convertWordToPDF]: [[\x20-\x7E\n\r]] and [\s]. *)
Definition readable (c : ascii) : bool :=
  let n := nat_of_ascii c in
  ((32 <=? n) && (n <=? 126) || (n =? 10) || (n =? 13))%nat.

Definition whitespace (c : ascii) : bool :=
  let n := nat_of_ascii c in
  ((9 <=? n) && (n <=? 13) || (n =? 32) || (n =? 160))%nat.

(** [.replace(/[^\x20-\x7E\n\r]/g, ' ')] *)
Fixpoint blankUnreadable (s : string) : string :=
  match s with
  | EmptyString => EmptyString
  | String c rest =>
      String (if readable c then c else " "%char) (blankUnreadable rest)
  end.

(** [.replace(/\s+/g, ' ')]: each run of whitespace becomes one space. *)
Fixpoint collapseWhitespace (s : string) : string :=
  match s with
  | EmptyString => EmptyString
  | String c rest =>
      if whitespace c
      then match rest with
           | String c' _ =>
               if whitespace c' then collapseWhitespace rest
               else String " "%char (collapseWhitespace rest)
           | EmptyString => String " "%char EmptyString
           end
      else String c (collapseWhitespace rest)
  end.

(** [.trim()] *)
Fixpoint trimStart (s : string) : string :=
  match s with
  | EmptyString => EmptyString
  | String c rest => if whitespace c then trimStart rest else s
  end.

Fixpoint trimEnd (s : string) : string :=
  match s with
  | EmptyString => EmptyString
  | String c rest =>
      match trimEnd rest with
      | EmptyString => if whitespace c then EmptyString else String c EmptyString
      | kept => String c kept
      end
  end.

Definition trim (s : string) : string := trimEnd (trimStart s).

Definition State : Type := JsPDF.jsPDF * bool * Effects.

Section Metrics.

(** [pdf.splitTextToSize(text, maxLineWidth)] wraps a text into lines with
    jsPDF's font metrics, which the repository does not hold. *)
Variable splitTextToSize : string -> Q -> list string.

(** One turn of [for (const line of lines)], on the document and [y]. *)
Definition writeLine (pageHeight : Q) (s : JsPDF.jsPDF * Q) (line : string)
  : JsPDF.jsPDF * Q :=
  let '(pdf, y) := s in
  let '(pdf, y) :=
    if Qlt_le_dec (pageHeight - margin) (y + lineHeight)
    then (JsPDF.addPage pdf, margin)
    else (pdf, y) in
  let pdf := JsPDF.text line margin y pdf in
  (pdf, y + lineHeight).

(** What the [try] block of [convertTextToPDF] does once the text is read. *)
Definition drawText (pageWidth pageHeight : Q) (item : UploadedFile)
    (text : string) (s : JsPDF.jsPDF * bool) : JsPDF.jsPDF * bool :=
  let '(pdf, isFirstPage) := s in
  let maxLineWidth := pageWidth - 2 * margin in
  let pdf := if negb isFirstPage then JsPDF.addPage pdf else pdf in
  let pdf := JsPDF.setFontSize 16 pdf in
  let pdf := JsPDF.setTextColor 0 0 0 pdf in
  let pdf := JsPDF.text (name item) margin (margin + 10) pdf in
  let pdf := JsPDF.setLineWidth (5 # 10) pdf in
  let pdf := JsPDF.line margin (margin + 15) (pageWidth - margin)
               (margin + 15) pdf in
  let pdf := JsPDF.setFontSize 10 pdf in
  let lines := splitTextToSize text maxLineWidth in
  let y := margin + 25 in
  let '(pdf, _) := fold_left (writeLine pageHeight) lines (pdf, y) in
  (pdf, false).

Definition textBody (onProgress : bool) (n : nat) (pageWidth pageHeight : Q)
    (i : nat) (item : UploadedFile) (s : State) : State :=
  let '(doc, fx) := s in
  let fx := report onProgress (ninetyPercentOf i n) fx in
  match contents (file item) with
  | Some text => (drawText pageWidth pageHeight item text doc, fx)
  | None =>
      (doc,
       console_error ("Error processing text file " ++ name item ++ ":") fx)
  end.

Definition convertTextToPDF (files : list UploadedFile) (onProgress : bool)
  : Result :=
  let pdf := JsPDF.create in
  let pageWidth := JsPDF.getWidth pdf in
  let pageHeight := JsPDF.getHeight pdf in
  let '(pdf, _, fx) :=
    forEachIndexed (textBody onProgress (List.length files)
                      pageWidth pageHeight)
      0 files (pdf, true, silent) in
  let fx := report onProgress 100 fx in
  (fx, Returned (JsPdfBlob (JsPDF.output pdf))).

(** The text [convertWordToPDF] takes out of a file it could read. *)
Definition extractText (item : UploadedFile) (rawText : string) : string :=
  if includes (mime (file item)) "word" || endsWith (name item) ".docx"
  then trim (collapseWhitespace (blankUnreadable rawText))
  else rawText.

(** What the [try] block of [convertWordToPDF] does with the text. *)
Definition drawWord (pageWidth pageHeight : Q) (item : UploadedFile)
    (text : string) (s : JsPDF.jsPDF * bool) : JsPDF.jsPDF * bool :=
  let '(pdf, isFirstPage) := s in
  let maxLineWidth := pageWidth - 2 * margin in
  let pdf := if negb isFirstPage then JsPDF.addPage pdf else pdf in
  let pdf := JsPDF.setFontSize 16 pdf in
  let pdf := JsPDF.setTextColor 0 0 0 pdf in
  let pdf := JsPDF.text (name item) margin (margin + 10) pdf in
  let pdf := JsPDF.setLineWidth (5 # 10) pdf in
  let pdf := JsPDF.line margin (margin + 15) (pageWidth - margin)
               (margin + 15) pdf in
  let pdf := JsPDF.setFontSize 10 pdf in
  let lines := splitTextToSize (substring 0 5000 text) maxLineWidth in
  let y := margin + 25 in
  let '(pdf, _) := fold_left (writeLine pageHeight) lines (pdf, y) in
  (pdf, false).

Definition wordBody (onProgress : bool) (n : nat) (pageWidth pageHeight : Q)
    (i : nat) (item : UploadedFile) (s : State) : State :=
  let '(doc, fx) := s in
  let fx := report onProgress (ninetyPercentOf i n) fx in
  match contents (file item) with
  | Some rawText =>
      let text := extractText item rawText in
      (drawWord pageWidth pageHeight item text doc, fx)
  | None =>
      (doc,
       console_error ("Error processing document " ++ name item ++ ":") fx)
  end.

Definition convertWordToPDF (files : list UploadedFile) (onProgress : bool)
  : Result :=
  let pdf := JsPDF.create in
  let pageWidth := JsPDF.getWidth pdf in
  let pageHeight := JsPDF.getHeight pdf in
  let '(pdf, _, fx) :=
    forEachIndexed (wordBody onProgress (List.length files)
                      pageWidth pageHeight)
      0 files (pdf, true, silent) in
  let fx := report onProgress 100 fx in
  (fx, Returned (JsPdfBlob (JsPDF.output pdf))).

End Metrics.

End Texts.

(** ** The dispatcher and its caller *)

Section Dispatch.

Variable splitTextToSize : string -> Q -> list string.

(** The [default] arm of [convertByFeature]. *)
Definition comingSoon (onProgress : bool) : Result :=
  let pdf := JsPDF.create in
  let pdf := JsPDF.setFontSize 16 pdf in
  let pdf := JsPDF.text "Feature Coming Soon!" 20 30 pdf in
  let pdf := JsPDF.setFontSize 12 pdf in
  let pdf :=
    JsPDF.text "This conversion feature is under development." 20 50 pdf in
  let pdf := JsPDF.text "Stay tuned for updates!" 20 70 pdf in
  let fx := report onProgress 100 silent in
  (fx, Returned (JsPdfBlob (JsPDF.output pdf))).

Definition convertByFeature (featureId : string) (files : list UploadedFile)
    (onProgress : bool) : Result :=
  if (featureId =? "images-to-pdf")%string
  then Images.convertImagesToPDF files onProgress
  else if (featureId =? "text-to-pdf")%string
  then Texts.convertTextToPDF splitTextToSize files onProgress
  else if (featureId =? "merge-pdfs")%string
  then Pdfs.mergePDFs files onProgress
  else if (featureId =? "split-pdf")%string
  then Pdfs.splitPDF files onProgress
  else if (featureId =? "word-to-pdf")%string
  then Texts.convertWordToPDF splitTextToSize files onProgress
  else comingSoon onProgress.

End Dispatch.

(** [toast({ title, description, variant })] *)
Record Toast : Type := mkToast
  { title : string; description : string; variant : string }.

(** [handleConvert] of the file uploader, the only caller of the conversion:
    it hands the batch to [onConvert] unless the batch is empty. *)
Definition handleConvert {A : Type} (onConvert : list UploadedFile -> A)
    (files : list UploadedFile) : Toast + A :=
  if (List.length files =? 0)%nat
  then inl {| title := "No files selected";
              description := "Please upload at least one file to convert.";
              variant := "destructive" |}
  else inr (onConvert files).

(** A stand-in for jsPDF's line wrapping that never wraps, to run the text
    strategies on concrete inputs. *)
Definition oneLine (text : string) (maxLineWidth : Q) : list string := [text].

(** ** Vocabulary for the properties *)

(** The turn every loop strategy takes per item: report progress, try to
    read the item, then draw it, or log its name when reading threw. *)
Definition perItem {V D : Type} (onProgress : bool) (n : nat)
    (attempt : UploadedFile -> option V) (complaint : string)
    (process : UploadedFile -> V -> D -> D)
    (i : nat) (item : UploadedFile) (s : D * Effects) : D * Effects :=
  let fx := report onProgress (ninetyPercentOf i n) (snd s) in
  match attempt item with
  | Some v => (process item v (fst s), fx)
  | None => (fst s, console_error (complaint ++ name item ++ ":") fx)
  end.

(** The same turn when what comes after the read can throw as well:
    [process] is what was done up to the throw, [throws] whether there was
    one. *)
Definition perItemThrowing {V D : Type} (onProgress : bool) (n : nat)
    (attempt : UploadedFile -> option V)
    (throws : UploadedFile -> V -> bool) (complaint : string)
    (process : UploadedFile -> V -> D -> D)
    (i : nat) (item : UploadedFile) (s : D * Effects) : D * Effects :=
  let fx := report onProgress (ninetyPercentOf i n) (snd s) in
  match attempt item with
  | Some v =>
      (process item v (fst s),
       if throws item v
       then console_error (complaint ++ name item ++ ":") fx
       else fx)
  | None => (fst s, console_error (complaint ++ name item ++ ":") fx)
  end.

Definition endsWell {V : Type} (attempt : UploadedFile -> option V)
    (throws : UploadedFile -> V -> bool) (item : UploadedFile) : bool :=
  match attempt item with
  | Some v => negb (throws item v)
  | None => false
  end.

(** The items of a batch that could be read, each with what was read, and
    the items that could not, both in batch order. *)
Definition successes {V : Type} (attempt : UploadedFile -> option V)
    (files : list UploadedFile) : list (UploadedFile * V) :=
  flat_map (fun item => match attempt item with
                        | Some v => [(item, v)]
                        | None => []
                        end) files.

Definition succeeds {V : Type} (attempt : UploadedFile -> option V)
    (item : UploadedFile) : bool :=
  match attempt item with
  | Some _ => true
  | None => false
  end.

Definition failures {V : Type} (attempt : UploadedFile -> option V)
    (files : list UploadedFile) : list UploadedFile :=
  filter (fun item => negb (succeeds attempt item)) files.

(** The progress values of a loop over [n] items, turns [i] to [i+len-1]. *)
Definition ramp (n i len : nat) : list Q :=
  map (fun k => ninetyPercentOf k n) (seq i len).

(** The page [convertImagesToPDF] makes for one decoded image. *)
Definition imagePage (pageWidth pageHeight : Q)
    (entry : UploadedFile * HTMLImage) : JsPDF.Page :=
  let '(item, img) := entry in
  let place := Images.placeImage pageWidth pageHeight
                 (inject_Z (Zpos (img_width img)))
                 (inject_Z (Zpos (img_height img))) in
  [ JsPDF.Image (JsPDF.mkDataURL img "image/jpeg" (95 # 100)) "JPEG"
      (Images.x place) (Images.y place)
      (Images.finalWidth place) (Images.finalHeight place);
    JsPDF.Text (name item) Images.margin (pageHeight - 5) 8
      (128, 128, 128)%Z ].

(** A source page bearing a label the way [splitPDF] draws it. *)
Definition stamped (label : string) (p : PdfLib.PDFPage) : PdfLib.PDFPage :=
  {| PdfLib.width := PdfLib.width p;
     PdfLib.height := PdfLib.height p;
     PdfLib.content :=
       PdfLib.content p
       ++ [PdfLib.DrawText label 50 (PdfLib.height p - 50) 12
             (5 # 10, 5 # 10, 5 # 10)] |}.

(** The pages of an item as [PDFDocument.load] sees them. *)
Definition pagesOf (item : UploadedFile) : list PdfLib.PDFPage :=
  match asPdf (file item) with
  | Some pdf => pdf
  | None => []
  end.

(** The body lines a jsPDF document shows: its texts in 10 point type (the
    titles are in 16 point), in page order. *)
Definition bodyLine (d : JsPDF.Drawing) : list string :=
  match d with
  | JsPDF.Text s _ _ size _ => if Qeq_bool size 10 then [s] else []
  | _ => []
  end.

Definition bodyLines (pages : list JsPDF.Page) : list string :=
  flat_map (flat_map bodyLine) pages.

Definition blobBodyLines (b : Blob) : list string :=
  match b with
  | JsPdfBlob pages => bodyLines pages
  | PdfLibBlob _ => []
  end.



Definition complaint (featureId : string) (item : UploadedFile) : string :=
  (if (featureId =? "images-to-pdf")%string then "Error processing image "
   else if (featureId =? "text-to-pdf")%string
   then "Error processing text file "
   else if (featureId =? "merge-pdfs")%string then "Error processing PDF "
   else "Error processing document ")
  ++ name item ++ ":".

(** The body lines of the document a call returned. *)
Definition resultBodyLines (r : Result) : list string :=
  match snd r with
  | Returned b => blobBodyLines b
  | Thrown _ => []
  end.

(** ** Sample inputs *)

Definition photo : HTMLImage :=
  {| img_width := 400; img_height := 300; img_pixels := "pixels";
     img_embedding := Embeds |}.


Definition sheet (stream : string) : PdfLib.PDFPage :=
  {| PdfLib.width := 612; PdfLib.height := 792;
     PdfLib.content := [PdfLib.Original stream] |}.

Definition upload (fileName : string) (f : File) : UploadedFile :=
  {| id := fileName; file := f; preview := None; name := fileName;
     size := "1 KB"; type := mime f |}.

Definition imageFile : File :=
  {| mime := "image/png"; contents := Some "PNG"; asImage := Some photo;
     asPdf := None |}.


Definition corruptFile : File :=
  {| mime := "image/png"; contents := None; asImage := None;
     asPdf := None |}.

Definition pdfFile (pages : list PdfLib.PDFPage) : File :=
  {| mime := "application/pdf"; contents := Some "%PDF"; asImage := None;
     asPdf := Some pages |}.

Definition textFile (fileType text : string) : File :=
  {| mime := fileType; contents := Some text; asImage := None;
     asPdf := None |}.

Fixpoint repeatChar (c : ascii) (n : nat) : string :=
  match n with
  | O => EmptyString
  | S k => String c (repeatChar c k)
  end.

(** What a loop strategy has drawn after a batch: the items that could be
    read, processed in batch order. *)
Definition drawn {V D : Type} (attempt : UploadedFile -> option V)
    (process : UploadedFile -> V -> D -> D)
    (files : list UploadedFile) (d : D) : D :=
  fold_left (fun d entry => process (fst entry) (snd entry) d)
            (successes attempt files) d.

(** The pages [splitPDF] makes of a parsed document: page [i] (from 0) with
    the label of [i]. *)
Definition stampAll (pdf : PdfLib.PDFDocument) : list PdfLib.PDFPage :=
  map (fun entry =>
         stamped (Pdfs.pageLabel (fst entry) (PdfLib.getPageCount pdf))
                 (snd entry))
      (combine (seq 0 (PdfLib.getPageCount pdf)) pdf).

(** ** More vocabulary for the strategies *)

(** What the drawings of a document give when each is seen through [f],
    in page order. *)
Definition collect {A : Type} (f : JsPDF.Drawing -> list A)
    (pages : list JsPDF.Page) : list A :=
  flat_map (flat_map f) pages.

(** Where a body line (a text in 10 point type) is drawn. *)
Definition bodyPosition (d : JsPDF.Drawing) : list (Q * Q) :=
  match d with
  | JsPDF.Text _ x y size _ => if Qeq_bool size 10 then [(x, y)] else []
  | _ => []
  end.

(** A body line is in place when it starts at the left margin and sits
    between the top margin and the bottom margin, its own height counted. *)
Definition inPlace (pageHeight : Q) (at_ : Q * Q) : Prop :=
  fst at_ = Texts.margin
  /\ Texts.margin <= snd at_
  /\ snd at_ + Texts.lineHeight <= pageHeight - Texts.margin.

(** The title a page opens with: its first drawing when that is a text in
    16 point type. *)
Definition opener (page : JsPDF.Page) : list string :=
  match page with
  | JsPDF.Text s _ _ size _ :: _ => if Qeq_bool size 16 then [s] else []
  | _ => []
  end.

Definition openers (pages : list JsPDF.Page) : list string :=
  flat_map opener pages.

(** The state of a text loop between two items: nothing drawn yet on the
    page jsPDF starts with, or a page that has been begun. *)
Definition between (s : JsPDF.jsPDF * bool) : Prop :=
  if snd s
  then JsPDF.finished (fst s) = [] /\ JsPDF.current (fst s) = []
  else JsPDF.current (fst s) <> [].

(** The pages of the document a call returned through jsPDF. *)
Definition resultPages (r : Result) : list JsPDF.Page :=
  match snd r with
  | Returned (JsPdfBlob pages) => pages
  | _ => []
  end.

(** The test [convertWordToPDF] makes before it strips a file's bytes. *)
Definition looksLikeWord (item : UploadedFile) : bool :=
  includes (mime (file item)) "word" || endsWith (name item) ".docx".

(** A character that shows: printable ASCII other than the space. *)
Definition glyph (c : ascii) : Prop :=
  (33 <= nat_of_ascii c <= 126)%nat.

(** Texts made of glyphs and single spaces: [Tidy] texts may end in a
    space, [Inner] texts may not. *)
Inductive Tidy : string -> Prop :=
| tidy_nil : Tidy EmptyString
| tidy_end : Tidy (String " " EmptyString)
| tidy_space (c : ascii) (rest : string) :
    glyph c -> Tidy (String c rest) -> Tidy (String " " (String c rest))
| tidy_glyph (c : ascii) (rest : string) :
    glyph c -> Tidy rest -> Tidy (String c rest).

Inductive Inner : string -> Prop :=
| inner_nil : Inner EmptyString
| inner_space (c : ascii) (rest : string) :
    glyph c -> Inner (String c rest) -> Inner (String " " (String c rest))
| inner_glyph (c : ascii) (rest : string) :
    glyph c -> Inner rest -> Inner (String c rest).

(** A text that does not start with a space. *)
Definition startsWithGlyph (s : string) : Prop :=
  match s with
  | EmptyString => True
  | String c _ => glyph c
  end.

(** The document of the [default] arm of [convertByFeature]. *)
Definition comingSoonPage : JsPDF.Page :=
  [ JsPDF.Text "Feature Coming Soon!" 20 30 16 (0, 0, 0)%Z;
    JsPDF.Text "This conversion feature is under development." 20 50 12
      (0, 0, 0)%Z;
    JsPDF.Text "Stay tuned for updates!" 20 70 12 (0, 0, 0)%Z ].

(** ** The feature catalog ([FeatureSelector.tsx]) *)

Module FeatureSelector.

(** [interface ConversionFeature], without its icon; an optional flag that
    is left out is [false]. *)
Record ConversionFeature : Type := mkFeature
  { id : string;
    title : string;
    description : string;
    inputTypes : list string;
    outputType : string;
    isPopular : bool;
    isNew : bool;
    comingSoon : bool }.

Definition conversionFeatures : list ConversionFeature :=
  [ {| id := "images-to-pdf";
       title := "Images to PDF";
       description := "Convert JPG, PNG, WebP, HEIC images into a single PDF";
       inputTypes := ["JPG"; "PNG"; "WebP"; "HEIC"];
       outputType := "PDF";
       isPopular := true; isNew := false; comingSoon := false |};
    {| id := "powerpoint-to-pdf";
       title := "PowerPoint to PDF";
       description := "Convert PPT and PPTX presentations to PDF format";
       inputTypes := ["PPT"; "PPTX"];
       outputType := "PDF";
       isPopular := false; isNew := false; comingSoon := true |};
    {| id := "word-to-pdf";
       title := "Word to PDF";
       description := "Convert DOC and DOCX documents to PDF format";
       inputTypes := ["DOC"; "DOCX"];
       outputType := "PDF";
       isPopular := false; isNew := false; comingSoon := true |};
    {| id := "excel-to-pdf";
       title := "Excel to PDF";
       description := "Convert XLS and XLSX spreadsheets to PDF format";
       inputTypes := ["XLS"; "XLSX"];
       outputType := "PDF";
       isPopular := false; isNew := false; comingSoon := true |};
    {| id := "text-to-pdf";
       title := "Text to PDF";
       description := "Convert plain text files into formatted PDF documents";
       inputTypes := ["TXT"; "MD"];
       outputType := "PDF";
       isPopular := false; isNew := true; comingSoon := true |};
    {| id := "merge-pdfs";
       title := "Merge PDFs";
       description := "Combine multiple PDF files into a single document";
       inputTypes := ["PDF"];
       outputType := "PDF";
       isPopular := false; isNew := true; comingSoon := true |};
    {| id := "split-pdf";
       title := "Split PDF";
       description :=
         "Split a PDF into multiple files or extract specific pages";
       inputTypes := ["PDF"];
       outputType := "PDF";
       isPopular := false; isNew := false; comingSoon := true |};
    {| id := "pdf-to-images";
       title := "PDF to Images";
       description := "Convert PDF pages to individual image files";
       inputTypes := ["PDF"];
       outputType := "JPG/PNG";
       isPopular := false; isNew := false; comingSoon := true |} ].

(** [handleFeatureClick]: what it stores as the selection and hands to
    [onFeatureSelect], or [None] when it returns at once. *)
Definition handleFeatureClick (feature : ConversionFeature)
  : option (string * ConversionFeature) :=
  if comingSoon feature then None
  else Some (id feature, feature).

End FeatureSelector.

(** ** The file uploader *)

(** A [File] as the file picker or a drop hands it over: the file of the
    conversion model with its name and its size in bytes. *)
Module DomFile.

Record t : Type := mk
  { name : string; size : N; blob : File }.

End DomFile.

(** [s.toLowerCase()] on 8-bit characters: A-Z and the accented capitals
    of Latin-1. *)
Definition lowerChar (c : ascii) : ascii :=
  let n := nat_of_ascii c in
  if ((65 <=? n) && (n <=? 90)
      || (192 <=? n) && (n <=? 222) && negb (n =? 215))%nat
  then ascii_of_nat (n + 32)
  else c.

Fixpoint toLowerCase (s : string) : string :=
  match s with
  | EmptyString => EmptyString
  | String c rest => String (lowerChar c) (toLowerCase rest)
  end.

(** [s.split(separator)] for a separator of one character. *)
Fixpoint split (separator : ascii) (s : string) : list string :=
  match s with
  | EmptyString => [EmptyString]
  | String c rest =>
      if Ascii.eqb c separator
      then EmptyString :: split separator rest
      else match split separator rest with
           | segment :: more => String c segment :: more
           | [] => [String c EmptyString]
           end
  end.

(** [parts.join(separator)] *)
Fixpoint join (separator : string) (parts : list string) : string :=
  match parts with
  | [] => EmptyString
  | [part] => part
  | part :: more => part ++ separator ++ join separator more
  end.

(** [list.includes(s)] on an array of strings. *)
Definition includesString (list : list string) (s : string) : bool :=
  existsb (String.eqb s) list.

Module FileUploader.

(** [file.name.split('.').pop()?.toLowerCase() || ""] *)
Definition extensionOf (fileName : string) : string :=
  let popped := toLowerCase (List.last (split "."%char fileName) EmptyString) in
  if (popped =? EmptyString)%string then EmptyString else popped.

Definition acceptedExtensions (feature : FeatureSelector.ConversionFeature)
  : list string :=
  map toLowerCase (FeatureSelector.inputTypes feature).

Definition unsupported (feature : FeatureSelector.ConversionFeature)
    (f : DomFile.t) : Toast :=
  {| title := "Unsupported file type";
     description :=
       DomFile.name f ++ " is not supported. Please use "
       ++ join ", " (FeatureSelector.inputTypes feature) ++ " files.";
     variant := "destructive" |}.

Definition tooLarge (f : DomFile.t) : Toast :=
  {| title := "File too large";
     description :=
       DomFile.name f
       ++ " is larger than 50MB. Please use a smaller file.";
     variant := "destructive" |}.

(** A toast given no variant is shown in the default one. *)
Definition uploaded (count : nat) : Toast :=
  {| title := "Files uploaded";
     description := toString count ++ " file(s) ready for conversion.";
     variant := "default" |}.

Section Uploader.

(** [formatFileSize] goes through [Math.log] and [toFixed] and is taken as
    given; [randomId k] is what
    [Math.random().toString(36).substr(2, 9)] gives the [k]-th time one
    call of [processFiles] asks. *)
Variable formatFileSize : N -> string.
Variable randomId : nat -> string.

(** One turn of [Array.from(fileList).forEach(...)], on [newFiles] and the
    toasts shown so far. *)
Definition processFile (feature : FeatureSelector.ConversionFeature)
    (acc : list UploadedFile * list Toast) (f : DomFile.t)
  : list UploadedFile * list Toast :=
  let '(newFiles, toasts) := acc in
  let fileExtension := extensionOf (DomFile.name f) in
  if negb (includesString (acceptedExtensions feature) fileExtension)
  then (newFiles, toasts ++ [unsupported feature f])
  else if (50 * 1024 * 1024 <? DomFile.size f)%N
  then (newFiles, toasts ++ [tooLarge f])
  else
    let id := randomId (List.length newFiles) in
    let preview :=
      if (FeatureSelector.id feature =? "images-to-pdf")%string
         && String.prefix "image/" (mime (DomFile.blob f))
      then Some (asImage (DomFile.blob f))
      else None in
    (newFiles ++ [ {| id := id;
                      file := DomFile.blob f;
                      preview := preview;
                      name := DomFile.name f;
                      size := formatFileSize (DomFile.size f);
                      type := fileExtension |} ],
     toasts).

(** [processFiles]: the new value of the [files] state and the toasts
    shown, oldest first. *)
Definition processFiles (feature : FeatureSelector.ConversionFeature)
    (fileList : list DomFile.t) (prev : list UploadedFile)
  : list UploadedFile * list Toast :=
  let '(newFiles, toasts) :=
    fold_left (processFile feature) fileList ([], []) in
  (prev ++ newFiles,
   toasts ++ (if (0 <? List.length newFiles)%nat
              then [uploaded (List.length newFiles)]
              else [])).

End Uploader.

(** [removeFile]: the new value of the [files] state, and the file whose
    preview URL is revoked, if any. *)
Definition removeFile (removedId : string) (prev : list UploadedFile)
  : list UploadedFile * option UploadedFile :=
  let found := find (fun f => (id f =? removedId)%string) prev in
  let revoked :=
    match found with
    | Some f => match preview f with
                | Some _ => Some f
                | None => None
                end
    | None => None
    end in
  (filter (fun f => negb (id f =? removedId)%string) prev, revoked).

(** [array.splice(start, deleteCount)] and [array.splice(start, 0, item)]
    for indices that are not negative: what is left, and what was taken
    out. *)
Definition spliceOut {A : Type} (start deleteCount : nat) (l : list A)
  : list A * list A :=
  (firstn start l ++ skipn (start + deleteCount) l,
   firstn deleteCount (skipn start l)).

Definition spliceIn {A : Type} (start : nat) (item : A) (l : list A)
  : list A :=
  firstn start l ++ item :: skipn start l.

(** [onSortEnd]: the new value of the [files] state.  An entry is [None]
    where the array holds [undefined], which is what [const [removed]]
    picks up when [splice] took nothing out. *)
Definition onSortEnd (oldIndex newIndex : nat) (prev : list UploadedFile)
  : list (option UploadedFile) :=
  let newFiles := map Some prev in
  let '(newFiles, taken) := spliceOut oldIndex 1 newFiles in
  let removed := hd None taken in
  spliceIn newIndex removed newFiles.

End FileUploader.

(** ** The page that runs a conversion ([handleConvert] of [Index]) *)

Module Index.

(** [.replace(/\s+/g, '-')] *)
Fixpoint dashWhitespace (s : string) : string :=
  match s with
  | EmptyString => EmptyString
  | String c rest =>
      if Texts.whitespace c
      then match rest with
           | String c' _ =>
               if Texts.whitespace c' then dashWhitespace rest
               else String "-"%char (dashWhitespace rest)
           | EmptyString => String "-"%char EmptyString
           end
      else String c (dashWhitespace rest)
  end.

(** What [handleConvert] leaves behind, apart from the progress bar and
    the busy flag, which timers drive: the downloads started, the record of
    the last conversion, the toasts and the console messages. *)
Record Shown : Type := mkShown
  { downloads : list (Blob * string);
    lastConversion : option (string * string * string);
    toasts : list Toast;
    console : list string }.

Section Page.

Variable splitTextToSize : string -> Q -> list string.

(** [formatFileSize(resultBlob.size)] as one function of the blob, and
    [new Date().toISOString().slice(0, 10)]. *)
Variable formattedSize : Blob -> string.
Variable timestamp : string.

Definition handleConvert
    (selectedFeature : option FeatureSelector.ConversionFeature)
    (files : list UploadedFile) : Shown :=
  match selectedFeature with
  | None =>
      {| downloads := []; lastConversion := None; toasts := [];
         console := [] |}
  | Some feature =>
      let '(fx, settled) :=
        convertByFeature splitTextToSize (FeatureSelector.id feature)
          files true in
      match settled with
      | Returned resultBlob =>
          let featureName :=
            dashWhitespace (toLowerCase (FeatureSelector.title feature)) in
          let filename :=
            (featureName ++ "-" ++ timestamp ++ ".pdf")%string in
          {| downloads := [(resultBlob, filename)];
             lastConversion :=
               Some (filename, formattedSize resultBlob,
                     FeatureSelector.title feature);
             toasts :=
               [ {| title := "Conversion completed successfully!";
                    description :=
                      ("Your " ++ FeatureSelector.outputType feature
                       ++ " with " ++ toString (List.length files)
                       ++ " file(s) is ready for download.")%string;
                    variant := "default" |} ];
             console := consoleErrors fx |}
      | Thrown _ =>
          {| downloads := [];
             lastConversion := None;
             toasts :=
               [ {| title := "Conversion failed";
                    description :=
"Something went wrong while creating your PDF. Please try again.";
                    variant := "destructive" |} ];
             console := consoleErrors fx ++ ["Conversion error:"] |}
      end
  end.

End Page.

End Index.

(** The test [processFiles] of the file uploader puts a file to. *)
Definition accepted (feature : FeatureSelector.ConversionFeature)
    (f : DomFile.t) : bool :=
  includesString (FileUploader.acceptedExtensions feature)
                 (FileUploader.extensionOf (DomFile.name f))
  && (DomFile.size f <=? 50 * 1024 * 1024)%N.

Definition imagesFeature : FeatureSelector.ConversionFeature :=
  hd (FeatureSelector.mkFeature "" "" "" [] "" false false false)
     FeatureSelector.conversionFeatures.

(** ** The first converter ([convertImagesToPDF] of the image-only page) *)

Module PdfConverter.

(** [interface ImageFile]; [preview], a URL, is modelled by what an
    [Image] element loads from it. *)
Record ImageFile : Type := mkImageFile
  { id : string;
    file : File;
    preview : option HTMLImage;
    name : string;
    size : string }.

Definition margin : Q := 10.

(** One turn of the loop, the [try] block up to its end or to the call
    that throws, then the [catch]; the layout of an image is written as
    in [Images.placeImage] (the two files hold the same lines). *)
Definition body (onProgress : bool) (n : nat) (pageWidth pageHeight : Q)
    (i : nat) (image : ImageFile) (s : JsPDF.jsPDF * bool * Effects)
  : JsPDF.jsPDF * bool * Effects :=
  let '(pdf, isFirstPage, fx) := s in
  let fx := report onProgress (ninetyPercentOf i n) fx in
  let logged :=
    console_error ("Error processing image " ++ name image ++ ":") fx in
  match preview image with
  | Some img =>
      let place := Images.placeImage pageWidth pageHeight
                     (inject_Z (Zpos (img_width img)))
                     (inject_Z (Zpos (img_height img))) in
      if negb (Images.survivesCanvas (img_embedding img))
      then (pdf, isFirstPage, logged)
      else
        let imgData := JsPDF.mkDataURL img "image/jpeg" (95 # 100) in
        let pdf := if isFirstPage then pdf else JsPDF.addPage pdf in
        if negb (Images.survivesAddImage (img_embedding img))
        then (pdf, false, logged)
        else
          let pdf := JsPDF.addImage imgData "JPEG" (Images.x place)
                       (Images.y place) (Images.finalWidth place)
                       (Images.finalHeight place) pdf in
          let pdf := JsPDF.setFontSize 8 pdf in
          let pdf := JsPDF.setTextColor 128 128 128 pdf in
          if negb (Images.embeds (img_embedding img))
          then (pdf, false, logged)
          else
            let pdf := JsPDF.text (name image) margin (pageHeight - 5) pdf in
            (pdf, false, fx)
  | None => (pdf, isFirstPage, logged)
  end.

Definition convertImagesToPDF (images : list ImageFile) (onProgress : bool)
  : Result :=
  let pdf := JsPDF.create in
  let pageWidth := JsPDF.getWidth pdf in
  let pageHeight := JsPDF.getHeight pdf in
  let '(pdf, _, fx) :=
    forEachIndexed (body onProgress (List.length images) pageWidth pageHeight)
      0 images (pdf, true, silent) in
  let fx := report onProgress 100 fx in
  (fx, Returned (JsPdfBlob (JsPDF.output pdf))).

End PdfConverter.

(** An [ImageFile] seen as an [UploadedFile]: the same fields, and a type
    the image strategy does not read. *)
Definition asUploadedFile (image : PdfConverter.ImageFile) : UploadedFile :=
  {| id := PdfConverter.id image;
     file := PdfConverter.file image;
     preview := Some (PdfConverter.preview image);
     name := PdfConverter.name image;
     size := PdfConverter.size image;
     type := EmptyString |}.

(** * Properties *)

(** ** Rational arithmetic *)

Lemma Qdiv_lt_inv (a b c : Q) : 0 < c -> a / c < b -> a < b * c.
Proof.
  intros Hc H.
  assert (E : a == a / c * c) by (field; lra).
  rewrite E. apply Qmult_lt_compat_r; assumption.
Qed.

Lemma Qle_div_inv (a b c : Q) : 0 < c -> b <= a / c -> b * c <= a.
Proof.
  intros Hc H.
  apply Qle_trans with (a / c * c).
  - apply Qmult_le_compat_r; lra.
  - assert (E : a / c * c == a) by (field; lra).
    rewrite E. apply Qle_refl.
Qed.

(** ** The layout of an image *)

(** C1. For positive source dimensions and a page wider and higher than
    twice the margin, the placement keeps the aspect ratio of the source,
    fits the drawable area, and its centred origin (x, y) is not negative. *)
Theorem placeImage_fits (pageWidth pageHeight sourceWidth sourceHeight : Q) :
  0 < sourceWidth -> 0 < sourceHeight ->
  2 * Images.margin < pageWidth -> 2 * Images.margin < pageHeight ->
  let p := Images.placeImage pageWidth pageHeight sourceWidth sourceHeight in
  Images.finalWidth p / Images.finalHeight p == sourceWidth / sourceHeight
  /\ 0 < Images.finalWidth p /\ 0 < Images.finalHeight p
  /\ Images.finalWidth p <= pageWidth - 2 * Images.margin
  /\ Images.finalHeight p <= pageHeight - 2 * Images.margin
  /\ Images.x p == (pageWidth - Images.finalWidth p) / 2
  /\ Images.y p == (pageHeight - Images.finalHeight p) / 2
  /\ 0 <= Images.x p /\ 0 <= Images.y p.
Proof.
  intros Hsw Hsh Hpw Hph.
  unfold Images.placeImage, Images.margin in *.
  assert (HW : 0 < pageWidth - 2 * 10) by lra.
  assert (HH : 0 < pageHeight - 2 * 10) by lra.
  assert (Ha : 0 < sourceWidth / sourceHeight)
    by (apply Qlt_shift_div_l; lra).
  set (a := sourceWidth / sourceHeight) in *.
  destruct (Qlt_le_dec ((pageWidth - 2 * 10) / (pageHeight - 2 * 10)) a)
    as [Hwide | Htall];
    cbn [fst snd Images.finalWidth Images.finalHeight Images.x Images.y].
  - assert (Hfit : (pageWidth - 2 * 10) / a <= pageHeight - 2 * 10).
    { apply Qle_shift_div_r; [assumption|].
      apply Qlt_le_weak. rewrite (Qmult_comm (pageHeight - 2 * 10) a).
      apply Qdiv_lt_inv; assumption. }
    assert (Hpos : 0 < (pageWidth - 2 * 10) / a)
      by (apply Qlt_shift_div_l; lra).
    repeat split; try reflexivity; try lra;
      try (apply Qle_shift_div_l; lra).
    field. split; lra.
  - assert (Hfit : (pageHeight - 2 * 10) * a <= pageWidth - 2 * 10).
    { rewrite (Qmult_comm (pageHeight - 2 * 10) a).
      apply Qle_div_inv; assumption. }
    assert (Hpos : 0 < (pageHeight - 2 * 10) * a).
    { apply Qle_lt_trans with (0 * a); [lra|].
      apply Qmult_lt_compat_r; assumption. }
    repeat split; try reflexivity; try lra;
      try (apply Qle_shift_div_l; lra).
    field. lra.
Qed.

(** The placement of a 400 x 300 image on the A4 page of jsPDF. *)
Lemma placeImage_fits_witness :
  let pageWidth := JsPDF.getWidth JsPDF.create in
  let pageHeight := JsPDF.getHeight JsPDF.create in
  let p := Images.placeImage pageWidth pageHeight 400 300 in
  Images.finalWidth p / Images.finalHeight p == 400 / 300
  /\ 0 < Images.finalWidth p /\ 0 < Images.finalHeight p
  /\ Images.finalWidth p <= pageWidth - 2 * Images.margin
  /\ Images.finalHeight p <= pageHeight - 2 * Images.margin
  /\ Images.x p == (pageWidth - Images.finalWidth p) / 2
  /\ Images.y p == (pageHeight - Images.finalHeight p) / 2
  /\ 0 <= Images.x p /\ 0 <= Images.y p.
Proof.
  apply (placeImage_fits (JsPDF.getWidth JsPDF.create)
           (JsPDF.getHeight JsPDF.create) 400 300);
    vm_compute; reflexivity.
Defined.

(** ** The loop every strategy shares *)

Lemma effects_eta (fx : Effects) :
  {| progressCalls := progressCalls fx ++ [];
     consoleErrors := consoleErrors fx ++ [] |} = fx.
Proof. destruct fx; cbn; now rewrite !app_nil_r. Qed.

Section Loop.

Context {V D : Type}.
Variables (onProgress : bool) (n : nat).
Variable attempt : UploadedFile -> option V.
Variable prefix : string.
Variable process : UploadedFile -> V -> D -> D.
Variable body : nat -> UploadedFile -> D * Effects -> D * Effects.
Hypothesis body_shape : forall i item s,
  body i item s = perItem onProgress n attempt prefix process i item s.

Lemma loop_unfold (files : list UploadedFile) :
  forall i d fx,
    forEachIndexed body i files (d, fx) =
    (drawn attempt process files d,
     {| progressCalls :=
          progressCalls fx
          ++ (if onProgress then ramp n i (List.length files) else []);
        consoleErrors :=
          consoleErrors fx
          ++ map (fun item => prefix ++ name item ++ ":")%string
                 (failures attempt files) |}).
Proof.
  unfold drawn, ramp, failures, successes, succeeds.
  induction files as [|item rest IH]; intros i d fx; cbn [forEachIndexed].
  - cbn. destruct onProgress; now rewrite effects_eta.
  - rewrite body_shape. unfold perItem. cbn [fst snd].
    destruct (attempt item) as [v|] eqn:E; rewrite IH; cbn [flat_map filter];
      rewrite E; cbn [negb app fold_left fst snd map List.length seq];
      f_equal; unfold report, console_error;
      destruct onProgress; cbn [progressCalls consoleErrors];
      rewrite <- ?app_assoc; reflexivity.
Qed.



End Loop.

Section ThrowingLoop.

Context {V D : Type}.
Variables (onProgress : bool) (n : nat).
Variable attempt : UploadedFile -> option V.
Variable throws : UploadedFile -> V -> bool.
Variable prefix : string.
Variable process : UploadedFile -> V -> D -> D.
Variable body : nat -> UploadedFile -> D * Effects -> D * Effects.
Hypothesis body_shape : forall i item s,
  body i item s
  = perItemThrowing onProgress n attempt throws prefix process i item s.

Lemma throwing_loop_unfold (files : list UploadedFile) :
  forall i d fx,
    forEachIndexed body i files (d, fx) =
    (drawn attempt process files d,
     {| progressCalls :=
          progressCalls fx
          ++ (if onProgress then ramp n i (List.length files) else []);
        consoleErrors :=
          consoleErrors fx
          ++ map (fun item => prefix ++ name item ++ ":")%string
                 (filter (fun item => negb (endsWell attempt throws item))
                         files) |}).
Proof.
  unfold drawn, ramp, successes, endsWell.
  induction files as [|item rest IH]; intros i d fx; cbn [forEachIndexed].
  - cbn. destruct onProgress; now rewrite effects_eta.
  - rewrite body_shape. unfold perItemThrowing. cbn [fst snd].
    destruct (attempt item) as [v|] eqn:E;
      [destruct (throws item v) eqn:T|];
      rewrite IH; cbn [flat_map filter];
      rewrite ?E, ?T; cbn [negb app fold_left fst snd map List.length seq];
      f_equal; unfold report, console_error;
      destruct onProgress; cbn [progressCalls consoleErrors];
      rewrite <- ?app_assoc; reflexivity.
Qed.


End ThrowingLoop.

(** ** Progress values *)

Lemma ninetyPercentOf_mono (n i j : nat) :
  (i <= j)%nat -> ninetyPercentOf i n <= ninetyPercentOf j n.
Proof.
  intros Hij. unfold ninetyPercentOf, Qdiv.
  apply Qmult_le_compat_r; [|lra].
  apply Qmult_le_compat_r.
  - rewrite <- Zle_Qle. lia.
  - apply Qinv_le_0_compat. change 0 with (inject_Z 0).
    rewrite <- Zle_Qle. lia.
Qed.

Lemma ninetyPercentOf_range (n i : nat) :
  (i < n)%nat -> 0 <= ninetyPercentOf i n /\ ninetyPercentOf i n <= 90.
Proof.
  intros Hin. unfold ninetyPercentOf.
  assert (Hn : 0 < inject_Z (Z.of_nat n)).
  { change 0 with (inject_Z 0). rewrite <- Zlt_Qlt. lia. }
  assert (Hi : 0 <= inject_Z (Z.of_nat i)).
  { change 0 with (inject_Z 0). rewrite <- Zle_Qle. lia. }
  assert (Hle : inject_Z (Z.of_nat i) <= inject_Z (Z.of_nat n)).
  { rewrite <- Zle_Qle. lia. }
  assert (H0 : 0 <= inject_Z (Z.of_nat i) / inject_Z (Z.of_nat n))
    by (apply Qle_shift_div_l; lra).
  assert (H1 : inject_Z (Z.of_nat i) / inject_Z (Z.of_nat n) <= 1)
    by (apply Qle_shift_div_r; lra).
  split; lra.
Qed.

Lemma ramp_range (n len : nat) : forall i,
  (i + len <= n)%nat ->
  Forall (fun v => 0 <= v /\ v <= 90) (ramp n i len).
Proof.
  unfold ramp. intros i H. apply Forall_forall. intros v Hv.
  apply in_map_iff in Hv. destruct Hv as [k [<- Hk]].
  apply in_seq in Hk. apply ninetyPercentOf_range. lia.
Qed.

Lemma ramp_sorted (n len : nat) : forall i,
  StronglySorted Qle (ramp n i len).
Proof.
  unfold ramp. induction len as [|len IH]; intros i; cbn [seq map].
  - constructor.
  - constructor; [apply IH|].
    apply Forall_forall. intros v Hv.
    apply in_map_iff in Hv. destruct Hv as [k [<- Hk]].
    apply in_seq in Hk. apply ninetyPercentOf_mono. lia.
Qed.

Lemma sorted_snoc (l : list Q) (top : Q) :
  StronglySorted Qle l -> Forall (fun v => v <= top) l ->
  StronglySorted Qle (l ++ [top]).
Proof.
  induction 1 as [|a l Hl IH Ha]; intros Hall; cbn.
  - repeat constructor.
  - inversion Hall as [|? ? Hat Hlt]; subst. constructor.
    + apply IH; assumption.
    + apply Forall_app. split; [assumption|]. constructor; [assumption|constructor].
Qed.

(** A loop's values followed by the closing 100 keep the contract. *)
Lemma ramp_then_100 (n : nat) :
  let calls := ramp n 0 n ++ [100] in
  Forall (fun v => 0 <= v /\ v <= 100) calls /\ StronglySorted Qle calls.
Proof.
  pose proof (ramp_range n n 0 (Nat.le_refl _)) as Hr.
  split.
  - apply Forall_app. split.
    + eapply Forall_impl; [|exact Hr]. cbn. intros v [? ?]. split; lra.
    + constructor; [split; lra|constructor].
  - apply sorted_snoc; [apply ramp_sorted|].
    eapply Forall_impl; [|exact Hr]. cbn. intros v [? ?]. lra.
Qed.

(** ** What each strategy returns *)

Lemma images_shape (onProgress : bool) (n : nat) (pw ph : Q) i item s :
  Images.body onProgress n pw ph i item s
  = perItemThrowing onProgress n Images.loadImage
      (fun _ img => negb (Images.embeds (img_embedding img)))
      "Error processing image " (Images.drawImage pw ph) i item s.
Proof.
  destruct s as [d fx]. unfold Images.body, perItemThrowing. cbn [fst snd].
  destruct (Images.loadImage item) as [img|]; [|reflexivity].
  destruct (Images.embeds (img_embedding img)); reflexivity.
Qed.

Lemma images_logged (files : list UploadedFile) :
  filter (fun item =>
            negb (endsWell Images.loadImage
                    (fun _ img => negb (Images.embeds (img_embedding img)))
                    item)) files
  = filter (fun item => negb (Images.completes item)) files.
Proof.
  apply filter_ext. intros item. unfold endsWell, Images.completes.
  destruct (Images.loadImage item); [|reflexivity].
  now rewrite negb_involutive.
Qed.

Lemma images_unfold (files : list UploadedFile) (onProgress : bool) :
  let pw := JsPDF.getWidth JsPDF.create in
  let ph := JsPDF.getHeight JsPDF.create in
  Images.convertImagesToPDF files onProgress =
  (report onProgress 100
     {| progressCalls :=
          if onProgress then ramp (List.length files) 0 (List.length files)
          else [];
        consoleErrors :=
          map (fun item => "Error processing image " ++ name item ++ ":")%string
              (filter (fun item => negb (Images.completes item)) files) |},
   Returned (JsPdfBlob (JsPDF.output
     (fst (drawn Images.loadImage (Images.drawImage pw ph) files
             (JsPDF.create, true)))))).
Proof.
  intros pw ph. unfold Images.convertImagesToPDF.
  rewrite (throwing_loop_unfold onProgress (List.length files)
             Images.loadImage
             (fun _ img => negb (Images.embeds (img_embedding img)))
             "Error processing image " (Images.drawImage pw ph) _
             (images_shape onProgress (List.length files) pw ph)).
  rewrite images_logged.
  destruct (drawn _ _ files _) as [pdf first]. reflexivity.
Qed.

Lemma merge_shape (onProgress : bool) (n : nat) i item s :
  Pdfs.mergeBody onProgress n i item s
  = perItem onProgress n (fun f => asPdf (file f)) "Error processing PDF "
      (fun _ pdf doc => Pdfs.appendDocument pdf doc) i item s.
Proof.
  destruct s as [d fx]. unfold Pdfs.mergeBody, perItem. cbn [fst snd].
  destruct (asPdf (file item)); reflexivity.
Qed.

Lemma merge_unfold (files : list UploadedFile) (onProgress : bool) :
  Pdfs.mergePDFs files onProgress =
  (report onProgress 100
     {| progressCalls :=
          if onProgress then ramp (List.length files) 0 (List.length files)
          else [];
        consoleErrors :=
          map (fun item => "Error processing PDF " ++ name item ++ ":")%string
              (failures (fun f => asPdf (file f)) files) |},
   Returned (PdfLibBlob (PdfLib.save
     (drawn (fun f => asPdf (file f))
            (fun _ pdf doc => Pdfs.appendDocument pdf doc) files
            PdfLib.create)))).
Proof.
  unfold Pdfs.mergePDFs.
  rewrite (loop_unfold onProgress (List.length files)
             (fun f => asPdf (file f)) "Error processing PDF "
             (fun _ pdf doc => Pdfs.appendDocument pdf doc) _
             (merge_shape onProgress (List.length files))).
  reflexivity.
Qed.

Section TextShapes.

Variable splitTextToSize : string -> Q -> list string.

Lemma text_shape (onProgress : bool) (n : nat) (pw ph : Q) i item s :
  Texts.textBody splitTextToSize onProgress n pw ph i item s
  = perItem onProgress n (fun f => contents (file f))
      "Error processing text file "
      (Texts.drawText splitTextToSize pw ph) i item s.
Proof.
  destruct s as [d fx]. unfold Texts.textBody, perItem. cbn [fst snd].
  destruct (contents (file item)); reflexivity.
Qed.

Lemma text_unfold (files : list UploadedFile) (onProgress : bool) :
  let pw := JsPDF.getWidth JsPDF.create in
  let ph := JsPDF.getHeight JsPDF.create in
  Texts.convertTextToPDF splitTextToSize files onProgress =
  (report onProgress 100
     {| progressCalls :=
          if onProgress then ramp (List.length files) 0 (List.length files)
          else [];
        consoleErrors :=
          map (fun item =>
                 "Error processing text file " ++ name item ++ ":")%string
              (failures (fun f => contents (file f)) files) |},
   Returned (JsPdfBlob (JsPDF.output
     (fst (drawn (fun f => contents (file f))
             (Texts.drawText splitTextToSize pw ph) files
             (JsPDF.create, true)))))).
Proof.
  intros pw ph. unfold Texts.convertTextToPDF.
  rewrite (loop_unfold onProgress (List.length files)
             (fun f => contents (file f)) "Error processing text file "
             (Texts.drawText splitTextToSize pw ph) _
             (text_shape onProgress (List.length files) pw ph)).
  destruct (drawn _ _ files _) as [pdf first]. reflexivity.
Qed.

Lemma word_shape (onProgress : bool) (n : nat) (pw ph : Q) i item s :
  Texts.wordBody splitTextToSize onProgress n pw ph i item s
  = perItem onProgress n (fun f => contents (file f))
      "Error processing document "
      (fun item rawText =>
         Texts.drawWord splitTextToSize pw ph item
           (Texts.extractText item rawText)) i item s.
Proof.
  destruct s as [d fx]. unfold Texts.wordBody, perItem. cbn [fst snd].
  destruct (contents (file item)); reflexivity.
Qed.

Lemma word_unfold (files : list UploadedFile) (onProgress : bool) :
  let pw := JsPDF.getWidth JsPDF.create in
  let ph := JsPDF.getHeight JsPDF.create in
  Texts.convertWordToPDF splitTextToSize files onProgress =
  (report onProgress 100
     {| progressCalls :=
          if onProgress then ramp (List.length files) 0 (List.length files)
          else [];
        consoleErrors :=
          map (fun item =>
                 "Error processing document " ++ name item ++ ":")%string
              (failures (fun f => contents (file f)) files) |},
   Returned (JsPdfBlob (JsPDF.output
     (fst (drawn (fun f => contents (file f))
             (fun item rawText =>
                Texts.drawWord splitTextToSize pw ph item
                  (Texts.extractText item rawText)) files
             (JsPDF.create, true)))))).
Proof.
  intros pw ph. unfold Texts.convertWordToPDF.
  rewrite (loop_unfold onProgress (List.length files)
             (fun f => contents (file f)) "Error processing document "
             (fun item rawText =>
                Texts.drawWord splitTextToSize pw ph item
                  (Texts.extractText item rawText)) _
             (word_shape onProgress (List.length files) pw ph)).
  destruct (drawn _ _ files _) as [pdf first]. reflexivity.
Qed.

End TextShapes.

Lemma alter_last (f : PdfLib.PDFPage -> PdfLib.PDFPage)
    (doc : PdfLib.PDFDocument) (p : PdfLib.PDFPage) :
  PdfLib.alter f (List.length doc) (doc ++ [p]) = doc ++ [f p].
Proof.
  induction doc as [|q doc IH]; cbn; [reflexivity|]. now rewrite IH.
Qed.

Lemma getSize_last (doc : PdfLib.PDFDocument) (p : PdfLib.PDFPage) :
  PdfLib.getSize (doc ++ [p]) (List.length doc)
  = (PdfLib.width p, PdfLib.height p).
Proof.
  unfold PdfLib.getSize.
  rewrite nth_error_app2, Nat.sub_diag by lia. reflexivity.
Qed.

Lemma skipn_nth_error {A : Type} (l : list A) : forall k p,
  nth_error l k = Some p -> skipn k l = p :: skipn (S k) l.
Proof.
  induction l as [|a l IH]; intros [|k] p H; cbn in H; try discriminate.
  - now inversion H.
  - cbn [skipn]. rewrite (IH k p H). reflexivity.
Qed.

Lemma splitBody_step (onProgress : bool) (pdf doc : PdfLib.PDFDocument)
    (pageCount i : nat) (p : PdfLib.PDFPage) (fx : Effects) :
  nth_error pdf i = Some p ->
  Pdfs.splitBody onProgress pdf pageCount i (doc, fx)
  = (doc ++ [stamped (Pdfs.pageLabel i pageCount) p],
     report onProgress (ninetyPercentOf i pageCount) fx).
Proof.
  intros Hp. unfold Pdfs.splitBody, PdfLib.copyPages. cbn [flat_map].
  rewrite Hp. cbn [app hd]. unfold PdfLib.addPage.
  rewrite getSize_last. unfold PdfLib.drawText. rewrite alter_last.
  reflexivity.
Qed.

Lemma split_loop (onProgress : bool) (pdf : PdfLib.PDFDocument)
    (pageCount len : nat) : forall k doc fx,
  (k + len = List.length pdf)%nat ->
  fold_left (fun s i => Pdfs.splitBody onProgress pdf pageCount i s)
            (seq k len) (doc, fx)
  = (doc ++ map (fun entry =>
                   stamped (Pdfs.pageLabel (fst entry) pageCount) (snd entry))
                (combine (seq k len) (skipn k pdf)),
     {| progressCalls :=
          progressCalls fx
          ++ (if onProgress then ramp pageCount k len else []);
        consoleErrors := consoleErrors fx |}).
Proof.
  induction len as [|len IH]; intros k doc fx Hk; cbn [seq fold_left].
  - cbn. rewrite app_nil_r. destruct fx; cbn.
    destruct onProgress; now rewrite app_nil_r.
  - destruct (nth_error pdf k) as [p|] eqn:Hp.
    2:{ apply nth_error_None in Hp. lia. }
    rewrite (splitBody_step _ _ _ _ _ _ _ Hp).
    rewrite IH by lia.
    rewrite (skipn_nth_error _ _ _ Hp). cbn [combine map fst snd].
    rewrite <- app_assoc. cbn [app]. f_equal.
    unfold report, ramp. destruct onProgress; cbn [progressCalls consoleErrors];
      cbn [seq map]; rewrite <- ?app_assoc; reflexivity.
Qed.

Lemma split_unfold (item : UploadedFile) (rest : list UploadedFile)
    (pdf : PdfLib.PDFDocument) (onProgress : bool) :
  asPdf (file item) = Some pdf ->
  Pdfs.splitPDF (item :: rest) onProgress =
  (report onProgress 100
     {| progressCalls :=
          if onProgress
          then ramp (List.length pdf) 0 (List.length pdf) else [];
        consoleErrors := [] |},
   Returned (PdfLibBlob (PdfLib.save (stampAll pdf)))).
Proof.
  intros Hpdf. unfold Pdfs.splitPDF, Pdfs.forCount. rewrite Hpdf.
  unfold PdfLib.getPageCount, PdfLib.create.
  rewrite split_loop by reflexivity. reflexivity.
Qed.

(** Closes the contract for a strategy that reported a full loop of [n]
    values and then 100. *)
Ltac ramp_closes n :=
  cbn [fst snd report progressCalls];
  let Hr := fresh "Hr" in
  let Hs := fresh "Hs" in
  destruct (ramp_then_100 n) as [Hr Hs];
  repeat split; try assumption; eexists; reflexivity.

(** C2. Over a batch of at least one item, with a progress callback, every
    strategy reports values in [0, 100] that never decrease; when the call
    returns a document the last value is 100.  The call is rejected only by
    the split strategy, which then has reported nothing. *)
Theorem progress_contract (splitTextToSize : string -> Q -> list string)
    (featureId : string) (files : list UploadedFile) :
  (1 <= List.length files)%nat ->
  let result := convertByFeature splitTextToSize featureId files true in
  let calls := progressCalls (fst result) in
  Forall (fun v => 0 <= v /\ v <= 100) calls
  /\ StronglySorted Qle calls
  /\ match snd result with
     | Returned _ => exists earlier, calls = earlier ++ [100]
     | Thrown _ => featureId = "split-pdf"%string /\ calls = []
     end.
Proof.
  intros Hn. unfold convertByFeature.
  destruct (featureId =? "images-to-pdf")%string.
  { rewrite images_unfold. ramp_closes (List.length files). }
  destruct (featureId =? "text-to-pdf")%string.
  { rewrite text_unfold. ramp_closes (List.length files). }
  destruct (featureId =? "merge-pdfs")%string.
  { rewrite merge_unfold. ramp_closes (List.length files). }
  destruct (featureId =? "split-pdf")%string eqn:Hsplit.
  { apply String.eqb_eq in Hsplit.
    destruct files as [|item rest]; [cbn in Hn; lia|].
    destruct (asPdf (file item)) as [pdf|] eqn:Hpdf.
    - rewrite (split_unfold _ _ _ _ Hpdf). ramp_closes (List.length pdf).
    - unfold Pdfs.splitPDF. rewrite Hpdf. cbn.
      repeat split; try constructor; assumption. }
  destruct (featureId =? "word-to-pdf")%string.
  { rewrite word_unfold. ramp_closes (List.length files). }
  cbn. repeat split.
  - constructor; [split; lra|constructor].
  - repeat constructor.
  - exists []. reflexivity.
Qed.

(** The batch [image, corrupt, image, image] through the image strategy. *)
Lemma progress_contract_witness :
  let result :=
    convertByFeature oneLine "images-to-pdf"
      [upload "a.png" imageFile; upload "b.png" corruptFile;
       upload "c.png" imageFile; upload "d.png" imageFile] true in
  let calls := progressCalls (fst result) in
  Forall (fun v => 0 <= v /\ v <= 100) calls
  /\ StronglySorted Qle calls
  /\ match snd result with
     | Returned _ => exists earlier, calls = earlier ++ [100]
     | Thrown _ => "images-to-pdf"%string = "split-pdf"%string /\ calls = []
     end.
Proof.
  apply (progress_contract oneLine "images-to-pdf"
           [upload "a.png" imageFile; upload "b.png" corruptFile;
            upload "c.png" imageFile; upload "d.png" imageFile]).
  cbn. lia.
Defined.

(** ** Images: a page left blank *)


(** ** Merging *)

Lemma copyPages_shift (p : PdfLib.PDFPage) (pdf : PdfLib.PDFDocument)
    (indices : list nat) :
  PdfLib.copyPages (p :: pdf) (map S indices) = PdfLib.copyPages pdf indices.
Proof.
  unfold PdfLib.copyPages. induction indices as [|i rest IH]; cbn;
    [reflexivity|]. now rewrite <- IH.
Qed.

Lemma copyPages_all (pdf : PdfLib.PDFDocument) :
  PdfLib.copyPages pdf (PdfLib.getPageIndices pdf) = pdf.
Proof.
  unfold PdfLib.getPageIndices, PdfLib.getPageCount.
  induction pdf as [|p pdf IH]; [reflexivity|].
  cbn [List.length seq]. rewrite <- seq_shift.
  change (PdfLib.copyPages (p :: pdf) (0%nat :: map S (seq 0 (List.length pdf))))
    with (p :: PdfLib.copyPages (p :: pdf) (map S (seq 0 (List.length pdf)))).
  now rewrite copyPages_shift, IH.
Qed.

Lemma addAll_app (pages : list PdfLib.PDFPage) :
  forall doc, Pdfs.addAll pages doc = doc ++ pages.
Proof.
  unfold Pdfs.addAll.
  induction pages as [|p pages IH]; intros doc; cbn [fold_left].
  - now rewrite app_nil_r.
  - rewrite IH. cbn. now rewrite <- app_assoc.
Qed.

Lemma appendDocument_app (pdf doc : PdfLib.PDFDocument) :
  Pdfs.appendDocument pdf doc = doc ++ pdf.
Proof. unfold Pdfs.appendDocument. now rewrite copyPages_all, addAll_app. Qed.

Lemma merge_drawn (files : list UploadedFile) : forall doc,
  drawn (fun f => asPdf (file f))
        (fun _ pdf doc => Pdfs.appendDocument pdf doc) files doc
  = doc ++ List.concat (map pagesOf files).
Proof.
  unfold drawn, successes, pagesOf.
  induction files as [|item rest IH]; intros doc; cbn [flat_map map List.concat].
  - cbn. now rewrite app_nil_r.
  - destruct (asPdf (file item)) as [pdf|]; cbn [app fold_left fst snd].
    + now rewrite IH, appendDocument_app, app_assoc.
    + apply IH.
Qed.

Lemma merge_result (files : list UploadedFile) (onProgress : bool) :
  snd (Pdfs.mergePDFs files onProgress)
  = Returned (PdfLibBlob (PdfLib.save (List.concat (map pagesOf files)))).
Proof. rewrite merge_unfold. cbn [snd]. now rewrite merge_drawn. Qed.

Lemma pagesOf_parsed (files : list UploadedFile) :
  forall documents : list PdfLib.PDFDocument,
  map (fun item => asPdf (file item)) files = map Some documents ->
  map pagesOf files = documents.
Proof.
  unfold pagesOf.
  induction files as [|item rest IH]; intros [|pdf documents] H; cbn in H;
    try discriminate; [reflexivity|].
  injection H as Hitem Hrest. cbn [map]. rewrite Hitem.
  rewrite (IH documents Hrest). reflexivity.
Qed.

(** C4, as the code has it. For every batch of PDF inputs that all parse
    and hold at least one page between them, [mergePDFs] returns the pages
    of the parsed documents, each document's pages in their own order and
    the documents in batch order, every page with its size and content;
    when the documents hold no page at all the output is one blank page. *)
Theorem merge_concatenates (files : list UploadedFile)
    (documents : list PdfLib.PDFDocument) (onProgress : bool) :
  map (fun item => asPdf (file item)) files = map Some documents ->
  snd (Pdfs.mergePDFs files onProgress)
  = Returned (PdfLibBlob
      match List.concat documents with
      | [] => [PdfLib.defaultPage]
      | page :: pages => page :: pages
      end).
Proof.
  intros Hparsed. rewrite merge_result.
  rewrite (pagesOf_parsed files documents Hparsed).
  unfold PdfLib.save. destruct (List.concat documents); reflexivity.
Qed.

(** Two inputs of one page each give these two pages, in batch order. *)
Lemma merge_concatenates_witness :
  snd (Pdfs.mergePDFs [upload "a.pdf" (pdfFile [sheet "A"]);
                       upload "b.pdf" (pdfFile [sheet "B"])] true)
  = Returned (PdfLibBlob [sheet "A"; sheet "B"]).
Proof.
  apply (merge_concatenates
           [upload "a.pdf" (pdfFile [sheet "A"]);
            upload "b.pdf" (pdfFile [sheet "B"])]
           [[sheet "A"]; [sheet "B"]] true).
  reflexivity.
Defined.

(** C4 as stated fails where the inputs hold no page: for the empty batch,
    and for a parseable document without pages, the concatenation of the
    inputs' pages is empty but the document returned has a page. *)
Lemma merge_without_pages_counterexample :
  List.concat (map pagesOf []) = []
  /\ snd (Pdfs.mergePDFs [] true)
     = Returned (PdfLibBlob [PdfLib.defaultPage])
  /\ asPdf (file (upload "empty.pdf" (pdfFile []))) = Some []
  /\ List.concat (map pagesOf [upload "empty.pdf" (pdfFile [])]) = []
  /\ snd (Pdfs.mergePDFs [upload "empty.pdf" (pdfFile [])] true)
     = Returned (PdfLibBlob [PdfLib.defaultPage]).
Proof. repeat split. Qed.

(** ** Strings *)

Lemma length_append (a b : string) :
  String.length (a ++ b) = (String.length a + String.length b)%nat.
Proof. induction a as [|c a IH]; cbn; [reflexivity|]. now rewrite IH. Qed.

Lemma append_cancel_tail (t : string) : forall a b : string,
  (a ++ t)%string = (b ++ t)%string -> a = b.
Proof.
  induction a as [|c a IH]; intros [|c' b] H; cbn in H.
  - reflexivity.
  - apply (f_equal String.length) in H. cbn in H.
    rewrite length_append in H. lia.
  - apply (f_equal String.length) in H. cbn in H.
    rewrite length_append in H. lia.
  - injection H as Hc Ht. subst c'. f_equal. apply IH. exact Ht.
Qed.

Lemma toString_inj (i j : nat) : toString i = toString j -> i = j.
Proof.
  unfold toString. intros H.
  assert (Hu : Some (Nat.to_uint i) = Some (Nat.to_uint j))
    by (rewrite <- !NilEmpty.usu; now rewrite H).
  injection Hu as Hu.
  rewrite <- (Unsigned.of_to i), <- (Unsigned.of_to j). now rewrite Hu.
Qed.

Lemma pageLabel_inj (pageCount i j : nat) :
  Pdfs.pageLabel i pageCount = Pdfs.pageLabel j pageCount -> i = j.
Proof.
  unfold Pdfs.pageLabel. intros H. cbn in H.
  injection H as H. apply append_cancel_tail in H.
  apply toString_inj in H. lia.
Qed.

Lemma substring_prefix (m : nat) : forall s : string,
  String.length (substring 0 m s) = Nat.min m (String.length s)
  /\ exists rest, s = (substring 0 m s ++ rest)%string.
Proof.
  induction m as [|m IH]; intros s.
  - destruct s; cbn; (split; [reflexivity|eexists; reflexivity]).
  - destruct s as [|c s]; cbn.
    + split; [reflexivity|]. exists EmptyString. reflexivity.
    + destruct (IH s) as [Hlen [rest Hrest]]. split; [now rewrite Hlen|].
      exists rest. now rewrite <- Hrest.
Qed.

(** ** Splitting *)

Lemma nth_error_numbered {A : Type} (l : list A) : forall k i,
  nth_error (combine (seq k (List.length l)) l) i
  = option_map (fun p => ((k + i)%nat, p)) (nth_error l i).
Proof.
  induction l as [|a l IH]; intros k [|i]; cbn; try reflexivity.
  - now rewrite Nat.add_0_r.
  - rewrite IH. now rewrite Nat.add_succ_r.
Qed.

Lemma stampAll_nth (pdf : PdfLib.PDFDocument) (i : nat) :
  nth_error (stampAll pdf) i
  = option_map (stamped (Pdfs.pageLabel i (List.length pdf)))
               (nth_error pdf i).
Proof.
  unfold stampAll, PdfLib.getPageCount.
  rewrite nth_error_map, nth_error_numbered.
  destruct (nth_error pdf i); reflexivity.
Qed.

Lemma stampAll_length (pdf : PdfLib.PDFDocument) :
  List.length (stampAll pdf) = List.length pdf.
Proof.
  unfold stampAll, PdfLib.getPageCount.
  rewrite length_map, length_combine, length_seq. lia.
Qed.

(** C5, as the code has it. For a batch of one parseable PDF of N pages,
    N at least 1, [splitPDF] returns a document of exactly N pages whose
    i-th page is the i-th source page bearing the label of i out of N, and
    the N labels differ from one another. *)
Theorem split_labels_pages (item : UploadedFile) (pdf : PdfLib.PDFDocument)
    (onProgress : bool) :
  asPdf (file item) = Some pdf ->
  (1 <= List.length pdf)%nat ->
  let N := List.length pdf in
  exists pages,
    snd (Pdfs.splitPDF [item] onProgress) = Returned (PdfLibBlob pages)
    /\ List.length pages = N
    /\ (forall i p, nth_error pdf i = Some p ->
          nth_error pages i = Some (stamped (Pdfs.pageLabel i N) p))
    /\ (forall i j, Pdfs.pageLabel i N = Pdfs.pageLabel j N -> i = j).
Proof.
  intros Hpdf Hlen N. exists (stampAll pdf).
  rewrite (split_unfold _ _ _ _ Hpdf). cbn [snd].
  repeat split.
  - unfold PdfLib.save. destruct (stampAll pdf) eqn:E; [|reflexivity].
    apply (f_equal (@List.length _)) in E. rewrite stampAll_length in E.
    cbn in E. lia.
  - apply stampAll_length.
  - intros i p Hp. rewrite stampAll_nth, Hp. reflexivity.
  - apply pageLabel_inj.
Qed.

(** A document of three pages. *)
Lemma split_labels_pages_witness :
  exists pages,
    snd (Pdfs.splitPDF
           [upload "book.pdf" (pdfFile [sheet "1"; sheet "2"; sheet "3"])]
           true)
    = Returned (PdfLibBlob pages)
    /\ List.length pages = 3%nat
    /\ nth_error pages 2 = Some (stamped "Page 3 of 3" (sheet "3")).
Proof.
  destruct (split_labels_pages
              (upload "book.pdf" (pdfFile [sheet "1"; sheet "2"; sheet "3"]))
              [sheet "1"; sheet "2"; sheet "3"] true)
    as [pages [Hrun [Hlen [Hnth _]]]].
  - reflexivity.
  - cbn. lia.
  - exists pages. repeat split; [exact Hrun|exact Hlen|].
    apply (Hnth 2%nat (sheet "3")). reflexivity.
Defined.

(** C5 as stated fails for N = 0: of a parseable document without pages
    [splitPDF] makes a document of one blank, unlabelled page. *)
Lemma split_without_pages_counterexample :
  asPdf (file (upload "empty.pdf" (pdfFile []))) = Some []
  /\ Pdfs.splitPDF [upload "empty.pdf" (pdfFile [])] true
     = ({| progressCalls := [100]; consoleErrors := [] |},
        Returned (PdfLibBlob [PdfLib.defaultPage]))
  /\ pageCount (PdfLibBlob [PdfLib.defaultPage]) = 1%nat.
Proof. repeat split. Qed.

(** C10. [splitPDF] reads the first item only: two batches with the same
    first item give the same result, whatever follows it. *)
Theorem split_reads_first_only (first : UploadedFile)
    (others others' : list UploadedFile) (onProgress : bool) :
  Pdfs.splitPDF (first :: others) onProgress
  = Pdfs.splitPDF (first :: others') onProgress
  /\ Pdfs.splitPDF (first :: others) onProgress
     = Pdfs.splitPDF [first] onProgress.
Proof. split; reflexivity. Qed.

(** ** The empty batch *)

(** C6, as the code has it. The uploader's [handleConvert] rejects a batch
    of zero items with a notification and never calls the conversion.
    [convertByFeature] itself rejects a batch of zero items only for
    "split-pdf", with the error "No PDF file provided", before any page is
    made or progress reported; for every other feature identifier it
    reports 100 and returns a document of one page. *)
Theorem empty_batch (splitTextToSize : string -> Q -> list string)
    (featureId : string) (onProgress : bool) :
  handleConvert
    (fun files => convertByFeature splitTextToSize featureId files onProgress)
    []
  = inl {| title := "No files selected";
           description := "Please upload at least one file to convert.";
           variant := "destructive" |}
  /\ if (featureId =? "split-pdf")%string
     then convertByFeature splitTextToSize featureId [] onProgress
          = (silent, Thrown (Error "No PDF file provided"))
     else exists blob,
            convertByFeature splitTextToSize featureId [] onProgress
            = (report onProgress 100 silent, Returned blob)
            /\ pageCount blob = 1%nat.
Proof.
  split; [reflexivity|].
  destruct (featureId =? "split-pdf")%string eqn:Hsplit.
  - apply String.eqb_eq in Hsplit. subst featureId. reflexivity.
  - unfold convertByFeature. rewrite Hsplit.
    destruct (featureId =? "images-to-pdf")%string;
      [eexists; split; reflexivity|].
    destruct (featureId =? "text-to-pdf")%string;
      [eexists; split; reflexivity|].
    destruct (featureId =? "merge-pdfs")%string;
      [eexists; split; reflexivity|].
    destruct (featureId =? "word-to-pdf")%string;
      eexists; split; reflexivity.
Qed.

(** C6 as stated fails: called with no item, the image strategy is run, is
    not rejected, and returns a document of one blank page. *)
Lemma empty_batch_counterexample :
  convertByFeature oneLine "images-to-pdf" [] true
  = ({| progressCalls := [100]; consoleErrors := [] |},
     Returned (JsPdfBlob [[]]))
  /\ pageCount (JsPdfBlob [[]]) = 1%nat.
Proof. split; reflexivity. Qed.

(** ** Items that cannot be read *)






(** ** Page counts *)

Lemma output_has_a_page (pdf : JsPDF.jsPDF) :
  (1 <= List.length (JsPDF.output pdf))%nat.
Proof. unfold JsPDF.output. rewrite length_app. cbn. lia. Qed.

Lemma save_has_a_page (doc : PdfLib.PDFDocument) :
  (1 <= List.length (PdfLib.save doc))%nat.
Proof. destruct doc; cbn; lia. Qed.

(** C9. Every document a conversion call returns has at least one page,
    whatever the feature identifier and the batch: also for the empty batch
    and for a batch none of whose items could be read. *)
Theorem returned_document_has_a_page
    (splitTextToSize : string -> Q -> list string)
    (featureId : string) (files : list UploadedFile) (onProgress : bool)
    (blob : Blob) :
  snd (convertByFeature splitTextToSize featureId files onProgress)
  = Returned blob ->
  (1 <= pageCount blob)%nat.
Proof.
  unfold convertByFeature.
  destruct (featureId =? "images-to-pdf")%string.
  { rewrite images_unfold. cbn [snd]. intros [= <-].
    apply output_has_a_page. }
  destruct (featureId =? "text-to-pdf")%string.
  { rewrite text_unfold. cbn [snd]. intros [= <-].
    apply output_has_a_page. }
  destruct (featureId =? "merge-pdfs")%string.
  { rewrite merge_unfold. cbn [snd]. intros [= <-].
    apply save_has_a_page. }
  destruct (featureId =? "split-pdf")%string.
  { destruct files as [|item rest]; [discriminate|].
    destruct (asPdf (file item)) as [pdf|] eqn:Hpdf.
    - rewrite (split_unfold _ _ _ _ Hpdf). cbn [snd]. intros [= <-].
      apply save_has_a_page.
    - unfold Pdfs.splitPDF. rewrite Hpdf. discriminate. }
  destruct (featureId =? "word-to-pdf")%string.
  { rewrite word_unfold. cbn [snd]. intros [= <-].
    apply output_has_a_page. }
  cbn [snd comingSoon]. intros [= <-]. apply output_has_a_page.
Qed.

(** Merging a batch whose only item does not parse. *)
Lemma returned_document_has_a_page_witness :
  snd (convertByFeature oneLine "merge-pdfs"
         [upload "broken.pdf" corruptFile] true)
  = Returned (PdfLibBlob [PdfLib.defaultPage])
  /\ (1 <= pageCount (PdfLibBlob [PdfLib.defaultPage]))%nat.
Proof.
  split; [reflexivity|].
  apply (returned_document_has_a_page oneLine "merge-pdfs"
           [upload "broken.pdf" corruptFile] true).
  reflexivity.
Defined.

(** ** The body of text and Word pages *)

Lemma bodyLines_app (a b : list JsPDF.Page) :
  bodyLines (a ++ b) = bodyLines a ++ bodyLines b.
Proof. unfold bodyLines. apply flat_map_app. Qed.

Lemma bodyLines_draw (d : JsPDF.Drawing) (pdf : JsPDF.jsPDF) :
  bodyLines (JsPDF.output (JsPDF.draw d pdf))
  = bodyLines (JsPDF.output pdf) ++ bodyLine d.
Proof.
  unfold JsPDF.output, JsPDF.draw. cbn [JsPDF.finished JsPDF.current].
  rewrite !bodyLines_app. unfold bodyLines at 2 4. cbn [flat_map].
  rewrite !app_nil_r, flat_map_app. cbn [flat_map].
  now rewrite app_nil_r, app_assoc.
Qed.

Lemma bodyLines_addPage (pdf : JsPDF.jsPDF) :
  bodyLines (JsPDF.output (JsPDF.addPage pdf))
  = bodyLines (JsPDF.output pdf).
Proof.
  unfold JsPDF.output, JsPDF.addPage. cbn [JsPDF.finished JsPDF.current].
  rewrite !bodyLines_app. cbn. now rewrite !app_nil_r.
Qed.

Lemma writeLine_body (ph : Q) (pdf : JsPDF.jsPDF) (y : Q) (line : string) :
  JsPDF.fontSize pdf = 10 ->
  let s := Texts.writeLine ph (pdf, y) line in
  bodyLines (JsPDF.output (fst s)) = bodyLines (JsPDF.output pdf) ++ [line]
  /\ JsPDF.fontSize (fst s) = 10.
Proof.
  intros Hsize. unfold Texts.writeLine.
  destruct (Qlt_le_dec (ph - Texts.margin) (y + Texts.lineHeight));
    cbn [fst]; unfold JsPDF.text; rewrite bodyLines_draw;
    rewrite ?bodyLines_addPage; cbn [JsPDF.fontSize JsPDF.addPage JsPDF.draw];
    rewrite Hsize; split; reflexivity.
Qed.

Lemma writeLines_body (ph : Q) (lines : list string) : forall pdf y,
  JsPDF.fontSize pdf = 10 ->
  bodyLines (JsPDF.output
               (fst (fold_left (Texts.writeLine ph) lines (pdf, y))))
  = bodyLines (JsPDF.output pdf) ++ lines.
Proof.
  induction lines as [|line rest IH]; intros pdf y Hsize; cbn [fold_left].
  - cbn. now rewrite app_nil_r.
  - destruct (writeLine_body ph pdf y line Hsize) as [Hbody Hsize'].
    destruct (Texts.writeLine ph (pdf, y) line) as [pdf' y'].
    cbn [fst] in *. rewrite IH by assumption. rewrite Hbody, <- app_assoc.
    reflexivity.
Qed.

Section Bodies.

Variable splitTextToSize : string -> Q -> list string.

(** Both strategies put the wrapped lines of the text they are given, and
    no other 10 point text, after what the document already showed. *)
Lemma typeset_body (pw ph : Q) (title : string) (lines : list string)
    (pdf : JsPDF.jsPDF) (isFirstPage : bool) :
  let pdf1 := if negb isFirstPage then JsPDF.addPage pdf else pdf in
  let pdf2 := JsPDF.setFontSize 16 pdf1 in
  let pdf3 := JsPDF.setTextColor 0 0 0 pdf2 in
  let pdf4 := JsPDF.text title Texts.margin (Texts.margin + 10) pdf3 in
  let pdf5 := JsPDF.setLineWidth (5 # 10) pdf4 in
  let pdf6 := JsPDF.line Texts.margin (Texts.margin + 15)
                (pw - Texts.margin) (Texts.margin + 15) pdf5 in
  let pdf7 := JsPDF.setFontSize 10 pdf6 in
  bodyLines (JsPDF.output
               (fst (fold_left (Texts.writeLine ph) lines
                       (pdf7, Texts.margin + 25))))
  = bodyLines (JsPDF.output pdf) ++ lines.
Proof.
  intros. rewrite writeLines_body by reflexivity.
  f_equal. subst pdf7 pdf6 pdf5 pdf4 pdf3 pdf2 pdf1.
  unfold JsPDF.line, JsPDF.text.
  change (JsPDF.output (JsPDF.setFontSize 10 ?p)) with (JsPDF.output p).
  rewrite bodyLines_draw. cbn [bodyLine].
  change (JsPDF.output (JsPDF.setLineWidth (5 # 10) ?p)) with (JsPDF.output p).
  rewrite bodyLines_draw.
  cbn [bodyLine JsPDF.fontSize JsPDF.setTextColor JsPDF.setFontSize].
  change (Qeq_bool 16 10) with false. cbn iota. rewrite !app_nil_r.
  destruct isFirstPage; cbn [negb];
    [reflexivity|apply bodyLines_addPage].
Qed.

Lemma drawText_body (pw ph : Q) (item : UploadedFile) (text : string)
    (s : JsPDF.jsPDF * bool) :
  bodyLines (JsPDF.output
               (fst (Texts.drawText splitTextToSize pw ph item text s)))
  = bodyLines (JsPDF.output (fst s))
    ++ splitTextToSize text (pw - 2 * Texts.margin).
Proof.
  destruct s as [pdf isFirstPage]. unfold Texts.drawText.
  pose proof (typeset_body pw ph (name item)
                (splitTextToSize text (pw - 2 * Texts.margin))
                pdf isFirstPage) as H.
  cbv zeta in H.
  destruct (fold_left _ _ _) as [pdf' y'] eqn:E. cbn [fst] in *. exact H.
Qed.

Lemma drawWord_body (pw ph : Q) (item : UploadedFile) (text : string)
    (s : JsPDF.jsPDF * bool) :
  bodyLines (JsPDF.output
               (fst (Texts.drawWord splitTextToSize pw ph item text s)))
  = bodyLines (JsPDF.output (fst s))
    ++ splitTextToSize (substring 0 5000 text) (pw - 2 * Texts.margin).
Proof.
  destruct s as [pdf isFirstPage]. unfold Texts.drawWord.
  pose proof (typeset_body pw ph (name item)
                (splitTextToSize (substring 0 5000 text)
                   (pw - 2 * Texts.margin))
                pdf isFirstPage) as H.
  cbv zeta in H.
  destruct (fold_left _ _ _) as [pdf' y'] eqn:E. cbn [fst] in *. exact H.
Qed.

End Bodies.

Lemma drawn_body {V : Type} (attempt : UploadedFile -> option V)
    (process : UploadedFile -> V -> JsPDF.jsPDF * bool -> JsPDF.jsPDF * bool)
    (lines : UploadedFile * V -> list string)
    (Hprocess : forall item v s,
       bodyLines (JsPDF.output (fst (process item v s)))
       = bodyLines (JsPDF.output (fst s)) ++ lines (item, v))
    (files : list UploadedFile) : forall s,
  bodyLines (JsPDF.output (fst (drawn attempt process files s)))
  = bodyLines (JsPDF.output (fst s))
    ++ flat_map lines (successes attempt files).
Proof.
  unfold drawn.
  induction (successes attempt files) as [|[item v] rest IH]; intros s;
    cbn [fold_left flat_map fst snd].
  - now rewrite app_nil_r.
  - rewrite IH, Hprocess, <- app_assoc. reflexivity.
Qed.

(** C8, as the code has it. The body [convertWordToPDF] renders for an item
    is the wrapping of the first 5000 characters of its extracted text (of
    the whole text when it is no longer) and nothing more; the body
    [convertTextToPDF] renders is the wrapping of the whole text, however
    long. *)
Theorem body_of_long_texts (splitTextToSize : string -> Q -> list string)
    (files : list UploadedFile) (onProgress : bool) :
  let maxLineWidth := JsPDF.getWidth JsPDF.create - 2 * Texts.margin in
  let readable := successes (fun f => contents (file f)) files in
  resultBodyLines (Texts.convertWordToPDF splitTextToSize files onProgress)
  = flat_map
      (fun entry =>
         splitTextToSize
           (substring 0 5000 (Texts.extractText (fst entry) (snd entry)))
           maxLineWidth) readable
  /\ resultBodyLines (Texts.convertTextToPDF splitTextToSize files onProgress)
     = flat_map (fun entry => splitTextToSize (snd entry) maxLineWidth)
                readable
  /\ forall text : string,
       String.length (substring 0 5000 text)
       = Nat.min 5000 (String.length text)
       /\ exists rest, text = (substring 0 5000 text ++ rest)%string.
Proof.
  intros maxLineWidth readable. split; [|split].
  - rewrite word_unfold. unfold resultBodyLines. cbn [snd blobBodyLines].
    rewrite (drawn_body _ _
               (fun entry =>
                  splitTextToSize
                    (substring 0 5000
                       (Texts.extractText (fst entry) (snd entry)))
                    maxLineWidth)).
    + reflexivity.
    + intros item v s. apply drawWord_body.
  - rewrite text_unfold. unfold resultBodyLines. cbn [snd blobBodyLines].
    rewrite (drawn_body _ _
               (fun entry => splitTextToSize (snd entry) maxLineWidth)).
    + reflexivity.
    + intros item v s. apply drawText_body.
  - intros text. apply substring_prefix.
Qed.

(** C8 as stated fails: of a Word file of 5001 characters the first 5000
    are rendered and nothing marks the cut, and a text file of 5001
    characters is rendered whole. *)
Lemma long_text_counterexample :
  String.length (repeatChar "a" (S 5000)) = S 5000
  /\ resultBodyLines
       (Texts.convertWordToPDF oneLine
          [upload "long.docx" (textFile "application/msword"
                                 (repeatChar "a" (S 5000)))] true)
     = [repeatChar "a" 5000]
  /\ resultBodyLines
       (Texts.convertTextToPDF oneLine
          [upload "long.txt" (textFile "text/plain" (repeatChar "a" (S 5000)))]
          true)
     = [repeatChar "a" (S 5000)].
Proof. repeat split; vm_compute; reflexivity. Qed.

(** * Further properties of the strategies *)

(** ** Batches in which nothing can be read *)

Lemma successes_none {V : Type} (attempt : UploadedFile -> option V)
    (files : list UploadedFile) :
  Forall (fun item => attempt item = None) files ->
  successes attempt files = [] /\ failures attempt files = files.
Proof.
  unfold successes, failures, succeeds.
  induction 1 as [|item rest Hitem _ [IHs IHf]]; [split; reflexivity|].
  cbn [flat_map filter]. rewrite Hitem. cbn [negb app].
  rewrite IHs, IHf. split; reflexivity.
Qed.

Lemma none_completes (files : list UploadedFile) :
  Forall (fun item => Images.loadImage item = None) files ->
  filter (fun item => negb (Images.completes item)) files = files.
Proof.
  induction 1 as [|item rest Hitem _ IH]; [reflexivity|].
  cbn [filter]. unfold Images.completes at 1. rewrite Hitem. cbn [negb].
  now rewrite IH.
Qed.

(** X1. When no image of the batch decodes (the empty batch included),
    [convertImagesToPDF] still returns: the document is the one blank page
    jsPDF starts with, every item is logged in batch order, and progress
    ends with 100. *)
Theorem images_none_decodes (files : list UploadedFile) (onProgress : bool) :
  Forall (fun item => Images.loadImage item = None) files ->
  Images.convertImagesToPDF files onProgress
  = (report onProgress 100
       {| progressCalls :=
            if onProgress
            then ramp (List.length files) 0 (List.length files) else [];
          consoleErrors :=
            map (fun item =>
                   "Error processing image " ++ name item ++ ":")%string
                files |},
     Returned (JsPdfBlob [[]])).
Proof.
  intros Hnone. rewrite images_unfold. unfold drawn.
  destruct (successes_none Images.loadImage files Hnone) as [Hs Hf].
  rewrite Hs, (none_completes files Hnone). reflexivity.
Qed.

(** Two files that are not images. *)
Lemma images_none_decodes_witness :
  Images.convertImagesToPDF
    [upload "a.png" corruptFile; upload "b.png" corruptFile] true
  = ({| progressCalls := [ninetyPercentOf 0 2; ninetyPercentOf 1 2; 100];
        consoleErrors := ["Error processing image a.png:"%string;
                          "Error processing image b.png:"%string] |},
     Returned (JsPdfBlob [[]])).
Proof.
  apply (images_none_decodes
           [upload "a.png" corruptFile; upload "b.png" corruptFile] true).
  repeat constructor.
Defined.

(** ** Batches in which every image that loads can be embedded *)

Lemma drawImage_next (pw ph : Q) (item : UploadedFile) (img : HTMLImage)
    (pdf : JsPDF.jsPDF) :
  img_embedding img = Embeds ->
  let s := Images.drawImage pw ph item img (pdf, false) in
  JsPDF.output (fst s) = JsPDF.output pdf ++ [imagePage pw ph (item, img)]
  /\ snd s = false.
Proof.
  intros He. unfold Images.drawImage. rewrite He. cbn.
  unfold JsPDF.output. cbn. split; reflexivity.
Qed.

Lemma drawImage_first (pw ph : Q) (item : UploadedFile) (img : HTMLImage)
    (pdf : JsPDF.jsPDF) :
  img_embedding img = Embeds ->
  let s := Images.drawImage pw ph item img (pdf, true) in
  JsPDF.output (fst s)
  = JsPDF.finished pdf ++ [JsPDF.current pdf ++ imagePage pw ph (item, img)]
  /\ snd s = false.
Proof.
  intros He. unfold Images.drawImage. rewrite He. cbn.
  unfold JsPDF.output. cbn. rewrite <- app_assoc. split; reflexivity.
Qed.

Lemma images_later_pages (pw ph : Q)
    (decoded : list (UploadedFile * HTMLImage)) :
  Forall (fun entry => img_embedding (snd entry) = Embeds) decoded ->
  forall pdf,
  JsPDF.output
    (fst (fold_left
            (fun d entry => Images.drawImage pw ph (fst entry) (snd entry) d)
            decoded (pdf, false)))
  = JsPDF.output pdf ++ map (imagePage pw ph) decoded.
Proof.
  induction 1 as [|[item img] rest He _ IH]; intros pdf; cbn [fold_left map].
  - cbn. now rewrite app_nil_r.
  - cbn [fst snd] in *.
    destruct (drawImage_next pw ph item img pdf He) as [Hout Hflag].
    destruct (Images.drawImage pw ph item img (pdf, false)) as [pdf' flag].
    cbn [fst snd] in *. subst flag. rewrite IH, Hout, <- app_assoc.
    reflexivity.
Qed.

Lemma images_pages (pw ph : Q) (decoded : list (UploadedFile * HTMLImage)) :
  Forall (fun entry => img_embedding (snd entry) = Embeds) decoded ->
  decoded <> [] ->
  JsPDF.output
    (fst (fold_left
            (fun d entry => Images.drawImage pw ph (fst entry) (snd entry) d)
            decoded (JsPDF.create, true)))
  = map (imagePage pw ph) decoded.
Proof.
  intros Hall Hsome. destruct decoded as [|[item img] rest]; [congruence|].
  inversion Hall as [|? ? He Hrest]; subst. cbn [fst snd] in He.
  cbn [fold_left map fst snd].
  destruct (drawImage_first pw ph item img JsPDF.create He) as [Hout Hflag].
  destruct (Images.drawImage pw ph item img (JsPDF.create, true))
    as [pdf' flag].
  cbn [fst snd] in *. subst flag.
  rewrite (images_later_pages pw ph rest Hrest), Hout. reflexivity.
Qed.

Lemma successes_nonempty {V : Type} (attempt : UploadedFile -> option V)
    (files : list UploadedFile) :
  Exists (fun item => attempt item <> None) files ->
  successes attempt files <> [].
Proof.
  unfold successes. induction 1 as [item rest Hitem|item rest _ IH];
    cbn [flat_map].
  - destruct (attempt item); [discriminate|congruence].
  - destruct (attempt item); [discriminate|exact IH].
Qed.

Lemma all_embed (files : list UploadedFile) :
  Forall (fun item => forall img, Images.loadImage item = Some img ->
                                  img_embedding img = Embeds) files ->
  Forall (fun entry => img_embedding (snd entry) = Embeds)
         (successes Images.loadImage files)
  /\ filter (fun item => negb (Images.completes item)) files
     = failures Images.loadImage files.
Proof.
  unfold successes, failures, succeeds, Images.completes.
  induction 1 as [|item rest Hitem _ [IHs IHf]]; [split; constructor|].
  cbn [flat_map filter].
  destruct (Images.loadImage item) as [img|] eqn:E; cbn [app negb].
  - rewrite (Hitem img eq_refl). cbn [Images.embeds negb]. split.
    + constructor; [apply Hitem; reflexivity|exact IHs].
    + exact IHf.
  - split; [exact IHs|now rewrite IHf].
Qed.

(** X17. When every image of the batch that loads can also be embedded,
    and at least one loads, [convertImagesToPDF] returns exactly the pages
    of the images that loaded, in batch order, each with its image and its
    caption and none left blank; the files that did not load are logged,
    in batch order, and leave no page; the last progress value is 100. *)
Theorem images_pages_when_all_embed (files : list UploadedFile) :
  Forall (fun item => forall img, Images.loadImage item = Some img ->
                                  img_embedding img = Embeds) files ->
  Exists (fun item => Images.loadImage item <> None) files ->
  let pageWidth := JsPDF.getWidth JsPDF.create in
  let pageHeight := JsPDF.getHeight JsPDF.create in
  let decoded := successes Images.loadImage files in
  exists fx pages,
    Images.convertImagesToPDF files true = (fx, Returned (JsPdfBlob pages))
    /\ pages = map (imagePage pageWidth pageHeight) decoded
    /\ List.length pages = List.length decoded
    /\ Forall (fun page => page <> []) pages
    /\ (exists earlier, progressCalls fx = earlier ++ [100])
    /\ consoleErrors fx
       = map (fun item => "Error processing image " ++ name item ++ ":")%string
             (failures Images.loadImage files).
Proof.
  intros Hembed Hsome pageWidth pageHeight decoded.
  destruct (all_embed files Hembed) as [Hall Hlog].
  rewrite images_unfold. unfold drawn.
  rewrite images_pages
    by (assumption || apply successes_nonempty; exact Hsome).
  rewrite Hlog. fold pageWidth pageHeight decoded.
  eexists. eexists. split; [reflexivity|].
  repeat split.
  - now rewrite length_map.
  - apply Forall_forall. intros page Hpage.
    apply in_map_iff in Hpage. destruct Hpage as [[item img] [<- _]].
    discriminate.
  - cbn. eexists; reflexivity.
Qed.

(** Three images and one file that does not load, second in the batch. *)
Lemma images_pages_when_all_embed_witness :
  let files := [upload "a.png" imageFile; upload "b.png" corruptFile;
                upload "c.png" imageFile; upload "d.png" imageFile] in
  exists fx pages,
    Images.convertImagesToPDF files true = (fx, Returned (JsPdfBlob pages))
    /\ List.length pages = 3%nat
    /\ consoleErrors fx = ["Error processing image b.png:"%string].
Proof.
  intros files.
  destruct (images_pages_when_all_embed files) as [fx [pages H]].
  - repeat constructor; cbn; intros img H; try discriminate H;
      injection H as <-; reflexivity.
  - apply Exists_cons_hd. vm_compute. discriminate.
  - exists fx, pages. destruct H as [Hrun [_ [Hlen [_ [_ Hlog]]]]].
    repeat split; assumption.
Defined.

(** ** More on the layout *)

Lemma placeImage_cases (pageWidth pageHeight sourceWidth sourceHeight : Q) :
  0 < sourceWidth -> 0 < sourceHeight ->
  2 * Images.margin < pageWidth -> 2 * Images.margin < pageHeight ->
  let p := Images.placeImage pageWidth pageHeight sourceWidth sourceHeight in
  (Images.finalWidth p = pageWidth - 2 * Images.margin
   /\ Images.finalHeight p <= pageHeight - 2 * Images.margin
   \/ Images.finalHeight p = pageHeight - 2 * Images.margin
      /\ Images.finalWidth p <= pageWidth - 2 * Images.margin)
  /\ Images.x p = (pageWidth - Images.finalWidth p) / 2
  /\ Images.y p = (pageHeight - Images.finalHeight p) / 2.
Proof.
  intros Hsw Hsh Hpw Hph.
  unfold Images.placeImage, Images.margin in *.
  assert (HW : 0 < pageWidth - 2 * 10) by lra.
  assert (HH : 0 < pageHeight - 2 * 10) by lra.
  assert (Ha : 0 < sourceWidth / sourceHeight)
    by (apply Qlt_shift_div_l; lra).
  set (a := sourceWidth / sourceHeight) in *.
  destruct (Qlt_le_dec ((pageWidth - 2 * 10) / (pageHeight - 2 * 10)) a)
    as [Hwide | Htall];
    cbn [fst snd Images.finalWidth Images.finalHeight Images.x Images.y];
    (split; [|split; reflexivity]).
  - left. split; [reflexivity|].
    apply Qle_shift_div_r; [assumption|].
    apply Qlt_le_weak. rewrite (Qmult_comm (pageHeight - 2 * 10) a).
    apply Qdiv_lt_inv; assumption.
  - right. split; [reflexivity|].
    rewrite (Qmult_comm (pageHeight - 2 * 10) a).
    apply Qle_div_inv; assumption.
Qed.

(** X2. Under the conditions of the layout, the image is as large as the
    drawable area allows (its width or its height is exactly that of the
    area) and lies within the margins on all four sides, with equal space
    left and right and equal space above and below. *)
Theorem placeImage_inside_margins
    (pageWidth pageHeight sourceWidth sourceHeight : Q) :
  0 < sourceWidth -> 0 < sourceHeight ->
  2 * Images.margin < pageWidth -> 2 * Images.margin < pageHeight ->
  let p := Images.placeImage pageWidth pageHeight sourceWidth sourceHeight in
  (Images.finalWidth p = pageWidth - 2 * Images.margin
   \/ Images.finalHeight p = pageHeight - 2 * Images.margin)
  /\ Images.margin <= Images.x p
  /\ Images.margin <= Images.y p
  /\ Images.x p + Images.finalWidth p <= pageWidth - Images.margin
  /\ Images.y p + Images.finalHeight p <= pageHeight - Images.margin
  /\ pageWidth - (Images.x p + Images.finalWidth p) == Images.x p
  /\ pageHeight - (Images.y p + Images.finalHeight p) == Images.y p.
Proof.
  intros Hsw Hsh Hpw Hph p.
  destruct (placeImage_cases pageWidth pageHeight sourceWidth sourceHeight
              Hsw Hsh Hpw Hph) as [Hside [Hx Hy]].
  fold p in Hside, Hx, Hy. rewrite Hx, Hy.
  unfold Images.margin in *.
  set (w := Images.finalWidth p) in *. set (h := Images.finalHeight p) in *.
  assert (Hw : w <= pageWidth - 2 * 10)
    by (destruct Hside as [[-> _]|[_ H]]; [apply Qle_refl|exact H]).
  assert (Hh : h <= pageHeight - 2 * 10)
    by (destruct Hside as [[_ H]|[-> _]]; [exact H|apply Qle_refl]).
  split; [destruct Hside as [[H _]|[H _]]; [left|right]; exact H|].
  assert (Ex : (pageWidth - w) / 2 == (1 # 2) * (pageWidth - w))
    by (field).
  assert (Ey : (pageHeight - h) / 2 == (1 # 2) * (pageHeight - h))
    by (field).
  repeat split; rewrite ?Ex, ?Ey; lra.
Qed.

(** A wide image on the A4 page of jsPDF. *)
Lemma placeImage_inside_margins_witness :
  let pageWidth := JsPDF.getWidth JsPDF.create in
  let pageHeight := JsPDF.getHeight JsPDF.create in
  let p := Images.placeImage pageWidth pageHeight 1600 900 in
  (Images.finalWidth p = pageWidth - 2 * Images.margin
   \/ Images.finalHeight p = pageHeight - 2 * Images.margin)
  /\ Images.margin <= Images.x p
  /\ Images.margin <= Images.y p
  /\ Images.x p + Images.finalWidth p <= pageWidth - Images.margin
  /\ Images.y p + Images.finalHeight p <= pageHeight - Images.margin
  /\ pageWidth - (Images.x p + Images.finalWidth p) == Images.x p
  /\ pageHeight - (Images.y p + Images.finalHeight p) == Images.y p.
Proof.
  apply (placeImage_inside_margins (JsPDF.getWidth JsPDF.create)
           (JsPDF.getHeight JsPDF.create) 1600 900);
    vm_compute; reflexivity.
Defined.

(** ** The callback, the dispatcher and page counts *)

Lemma report_silent_console (v : Q) (fx : Effects) :
  consoleErrors (report true v fx) = consoleErrors (report false v fx).
Proof. reflexivity. Qed.

(** X3. Whether a progress callback is passed changes nothing else: the
    call settles the same way, returns the same document and logs the same
    messages, and without a callback no progress value is computed for
    anyone. *)
Theorem callback_changes_nothing_else
    (splitTextToSize : string -> Q -> list string)
    (featureId : string) (files : list UploadedFile) :
  let run := convertByFeature splitTextToSize featureId files in
  snd (run true) = snd (run false)
  /\ consoleErrors (fst (run true)) = consoleErrors (fst (run false))
  /\ progressCalls (fst (run false)) = [].
Proof.
  intros run. subst run. unfold convertByFeature.
  destruct (featureId =? "images-to-pdf")%string.
  { rewrite !images_unfold. repeat split. }
  destruct (featureId =? "text-to-pdf")%string.
  { rewrite !text_unfold. repeat split. }
  destruct (featureId =? "merge-pdfs")%string.
  { rewrite !merge_unfold. repeat split. }
  destruct (featureId =? "split-pdf")%string.
  { destruct files as [|item rest]; [repeat split|].
    destruct (asPdf (file item)) as [pdf|] eqn:Hpdf.
    - rewrite !(split_unfold _ _ _ _ Hpdf). repeat split.
    - unfold Pdfs.splitPDF. rewrite Hpdf. repeat split. }
  destruct (featureId =? "word-to-pdf")%string.
  { rewrite !word_unfold. repeat split. }
  repeat split.
Qed.

(** X4. A feature identifier other than the five that have a strategy is
    never an error: whatever the batch, the call reports 100, logs nothing
    and returns a document of one page that says the feature is coming. *)
Theorem unknown_feature_is_announced
    (splitTextToSize : string -> Q -> list string)
    (featureId : string) (files : list UploadedFile) (onProgress : bool) :
  ~ In featureId ["images-to-pdf"; "text-to-pdf"; "merge-pdfs";
                  "split-pdf"; "word-to-pdf"]%string ->
  convertByFeature splitTextToSize featureId files onProgress
  = ({| progressCalls := if onProgress then [100] else [];
        consoleErrors := [] |},
     Returned (JsPdfBlob [comingSoonPage])).
Proof.
  intros Hnot. unfold convertByFeature.
  repeat match goal with
  | |- context [(featureId =? ?s)%string] =>
      destruct (String.eqb_spec featureId s) as [->|_];
      [exfalso; apply Hnot; cbn; tauto|]
  end.
  destruct onProgress; reflexivity.
Qed.

(** A feature of the catalog that has no strategy. *)
Lemma unknown_feature_is_announced_witness :
  convertByFeature oneLine "excel-to-pdf"
    [upload "sheet.xlsx" corruptFile] true
  = ({| progressCalls := [100]; consoleErrors := [] |},
     Returned (JsPdfBlob [comingSoonPage])).
Proof.
  apply (unknown_feature_is_announced oneLine "excel-to-pdf"
           [upload "sheet.xlsx" corruptFile] true).
  cbn. intros H.
  repeat (destruct H as [H|H]; [discriminate H|]). exact H.
Defined.

Lemma length_concat_sum {A : Type} (ls : list (list A)) :
  List.length (List.concat ls) = list_sum (map (@List.length A) ls).
Proof.
  induction ls as [|l ls IH]; [reflexivity|].
  cbn. now rewrite length_app, IH.
Qed.

(** X5. The document [mergePDFs] returns has as many pages as the inputs
    that parse have between them, an input that does not parse counting for
    none; when that total is zero it has one page. *)
Theorem merge_page_count (files : list UploadedFile) (onProgress : bool) :
  exists blob,
    snd (Pdfs.mergePDFs files onProgress) = Returned blob
    /\ pageCount blob
       = Nat.max 1 (list_sum (map (fun item => List.length (pagesOf item))
                                  files)).
Proof.
  eexists. split; [apply merge_result|].
  cbn [pageCount]. rewrite <- (map_map pagesOf (@List.length _)).
  rewrite <- length_concat_sum.
  destruct (List.concat (map pagesOf files)) as [|p rest]; cbn; lia.
Qed.

(** ** Word files that are plain text *)

Lemma substring_all (m : nat) : forall s : string,
  (String.length s <= m)%nat -> substring 0 m s = s.
Proof.
  induction m as [|m IH]; intros [|c s] H; cbn in *; try reflexivity;
    [lia|]. rewrite IH by lia. reflexivity.
Qed.

Lemma drawn_ext {V D : Type} (attempt : UploadedFile -> option V)
    (process process' : UploadedFile -> V -> D -> D)
    (files : list UploadedFile) :
  (forall item v, In item files -> attempt item = Some v ->
                  forall d, process item v d = process' item v d) ->
  forall d, drawn attempt process files d = drawn attempt process' files d.
Proof.
  unfold drawn, successes.
  induction files as [|item rest IH]; intros Hsame d; [reflexivity|].
  cbn [flat_map].
  assert (Hrest : forall i v, In i rest -> attempt i = Some v ->
                    forall d, process i v d = process' i v d)
    by (intros i v Hi; apply Hsame; now right).
  destruct (attempt item) as [v|] eqn:E; cbn [app fold_left fst snd].
  - rewrite (Hsame item v (or_introl eq_refl) E). apply IH, Hrest.
  - apply IH, Hrest.
Qed.

(** X6. On a batch none of whose files looks like a Word file (by type or
    by name) or holds more than 5000 characters, [convertWordToPDF] returns
    the very document [convertTextToPDF] returns, with the same progress
    values. *)
Theorem word_of_plain_text_is_text
    (splitTextToSize : string -> Q -> list string)
    (files : list UploadedFile) (onProgress : bool) :
  Forall (fun item =>
            looksLikeWord item = false
            /\ forall text, contents (file item) = Some text ->
                            (String.length text <= 5000)%nat) files ->
  snd (Texts.convertWordToPDF splitTextToSize files onProgress)
  = snd (Texts.convertTextToPDF splitTextToSize files onProgress)
  /\ progressCalls
       (fst (Texts.convertWordToPDF splitTextToSize files onProgress))
     = progressCalls
         (fst (Texts.convertTextToPDF splitTextToSize files onProgress)).
Proof.
  intros Hplain. rewrite word_unfold, text_unfold. cbn [fst snd].
  split; [|destruct onProgress; reflexivity].
  do 4 f_equal. apply drawn_ext. intros item text Hin Hread s.
  rewrite Forall_forall in Hplain. destruct (Hplain item Hin) as [Hw Hlen].
  unfold Texts.extractText. unfold looksLikeWord in Hw. rewrite Hw.
  unfold Texts.drawWord, Texts.drawText.
  rewrite (substring_all 5000 text (Hlen text Hread)). reflexivity.
Qed.

(** A short text file and a file that cannot be read. *)
Lemma word_of_plain_text_is_text_witness :
  let files := [upload "notes.txt" (textFile "text/plain" "hello");
                upload "gone.txt" corruptFile] in
  snd (Texts.convertWordToPDF oneLine files true)
  = snd (Texts.convertTextToPDF oneLine files true)
  /\ progressCalls (fst (Texts.convertWordToPDF oneLine files true))
     = progressCalls (fst (Texts.convertTextToPDF oneLine files true)).
Proof.
  apply (word_of_plain_text_is_text oneLine
           [upload "notes.txt" (textFile "text/plain" "hello");
            upload "gone.txt" corruptFile] true).
  apply Forall_cons; [|apply Forall_cons; [|apply Forall_nil]].
  - split; [reflexivity|]. cbn. intros text [= <-]. cbn. lia.
  - split; [reflexivity|]. cbn. intros text H. discriminate H.
Defined.

(** ** Where text pages put their lines *)

Lemma collect_app {A : Type} (f : JsPDF.Drawing -> list A)
    (a b : list JsPDF.Page) :
  collect f (a ++ b) = collect f a ++ collect f b.
Proof. unfold collect. apply flat_map_app. Qed.

Lemma collect_draw {A : Type} (f : JsPDF.Drawing -> list A)
    (d : JsPDF.Drawing) (pdf : JsPDF.jsPDF) :
  collect f (JsPDF.output (JsPDF.draw d pdf))
  = collect f (JsPDF.output pdf) ++ f d.
Proof.
  unfold JsPDF.output, JsPDF.draw. cbn [JsPDF.finished JsPDF.current].
  rewrite !collect_app. unfold collect at 2 4. cbn [flat_map].
  rewrite !app_nil_r, flat_map_app. cbn [flat_map].
  now rewrite app_nil_r, app_assoc.
Qed.

Lemma collect_addPage {A : Type} (f : JsPDF.Drawing -> list A)
    (pdf : JsPDF.jsPDF) :
  collect f (JsPDF.output (JsPDF.addPage pdf)) = collect f (JsPDF.output pdf).
Proof.
  unfold JsPDF.output, JsPDF.addPage. cbn [JsPDF.finished JsPDF.current].
  rewrite !collect_app. cbn. now rewrite !app_nil_r.
Qed.

Section Places.

Variable ph : Q.
Hypothesis room : Texts.margin + Texts.lineHeight <= ph - Texts.margin.

Lemma writeLine_place (pdf : JsPDF.jsPDF) (y : Q) (line : string) :
  JsPDF.fontSize pdf = 10 -> Texts.margin <= y ->
  Forall (inPlace ph) (collect bodyPosition (JsPDF.output pdf)) ->
  let s := Texts.writeLine ph (pdf, y) line in
  JsPDF.fontSize (fst s) = 10 /\ Texts.margin <= snd s
  /\ Forall (inPlace ph) (collect bodyPosition (JsPDF.output (fst s))).
Proof.
  intros Hsize Hy Hall. unfold Texts.writeLine.
  destruct (Qlt_le_dec (ph - Texts.margin) (y + Texts.lineHeight))
    as [Hfull|Hfits]; cbn [fst snd]; unfold JsPDF.text;
    rewrite collect_draw, ?collect_addPage;
    cbn [JsPDF.fontSize JsPDF.addPage JsPDF.draw bodyPosition];
    rewrite Hsize; change (Qeq_bool 10 10) with true; cbn iota;
    (split; [reflexivity|]);
    (split; [unfold Texts.margin, Texts.lineHeight in *; lra|]);
    apply Forall_app; (split; [assumption|]);
    constructor; [|constructor|
                  |constructor]; unfold inPlace; cbn [fst snd];
    (split; [reflexivity|]);
    unfold Texts.margin, Texts.lineHeight in *; split; lra.
Qed.

Lemma writeLines_place (lines : list string) : forall pdf y,
  JsPDF.fontSize pdf = 10 -> Texts.margin <= y ->
  Forall (inPlace ph) (collect bodyPosition (JsPDF.output pdf)) ->
  Forall (inPlace ph)
    (collect bodyPosition
       (JsPDF.output (fst (fold_left (Texts.writeLine ph) lines (pdf, y))))).
Proof.
  induction lines as [|line rest IH]; intros pdf y Hsize Hy Hall;
    cbn [fold_left]; [exact Hall|].
  destruct (writeLine_place pdf y line Hsize Hy Hall) as [Hs [Hy' Hall']].
  destruct (Texts.writeLine ph (pdf, y) line) as [pdf' y'].
  cbn [fst snd] in *. apply IH; assumption.
Qed.

Lemma typeset_place (pw : Q) (heading : string) (lines : list string)
    (pdf : JsPDF.jsPDF) (isFirstPage : bool) :
  Forall (inPlace ph) (collect bodyPosition (JsPDF.output pdf)) ->
  let pdf1 := if negb isFirstPage then JsPDF.addPage pdf else pdf in
  let pdf2 := JsPDF.setFontSize 16 pdf1 in
  let pdf3 := JsPDF.setTextColor 0 0 0 pdf2 in
  let pdf4 := JsPDF.text heading Texts.margin (Texts.margin + 10) pdf3 in
  let pdf5 := JsPDF.setLineWidth (5 # 10) pdf4 in
  let pdf6 := JsPDF.line Texts.margin (Texts.margin + 15)
                (pw - Texts.margin) (Texts.margin + 15) pdf5 in
  let pdf7 := JsPDF.setFontSize 10 pdf6 in
  Forall (inPlace ph)
    (collect bodyPosition
       (JsPDF.output (fst (fold_left (Texts.writeLine ph) lines
                             (pdf7, Texts.margin + 25))))).
Proof.
  intros Hall pdf1 pdf2 pdf3 pdf4 pdf5 pdf6 pdf7.
  apply writeLines_place; [reflexivity|unfold Texts.margin; lra|].
  subst pdf7 pdf6 pdf5 pdf4 pdf3 pdf2 pdf1.
  unfold JsPDF.line, JsPDF.text.
  change (JsPDF.output (JsPDF.setFontSize 10 ?p)) with (JsPDF.output p).
  rewrite collect_draw. cbn [bodyPosition].
  change (JsPDF.output (JsPDF.setLineWidth (5 # 10) ?p)) with (JsPDF.output p).
  rewrite collect_draw.
  cbn [bodyPosition JsPDF.fontSize JsPDF.setTextColor JsPDF.setFontSize].
  change (Qeq_bool 16 10) with false. cbn iota. rewrite !app_nil_r.
  destruct isFirstPage; cbn [negb];
    [exact Hall|].
  rewrite <- (collect_addPage bodyPosition pdf) in Hall. exact Hall.
Qed.

End Places.

Lemma drawn_keeps {V D : Type} (attempt : UploadedFile -> option V)
    (process : UploadedFile -> V -> D -> D) (P : D -> Prop)
    (Hprocess : forall item v d, P d -> P (process item v d))
    (files : list UploadedFile) :
  forall d, P d -> P (drawn attempt process files d).
Proof.
  unfold drawn.
  induction (successes attempt files) as [|[item v] rest IH]; intros d Hd;
    cbn [fold_left fst snd]; [exact Hd|].
  apply IH, Hprocess, Hd.
Qed.

Lemma a4_has_room :
  Texts.margin + Texts.lineHeight
  <= JsPDF.getHeight JsPDF.create - Texts.margin.
Proof. vm_compute. discriminate. Qed.

(** X7. Whatever the batch and however jsPDF wraps the texts, every body
    line of the documents [convertTextToPDF] and [convertWordToPDF] return
    starts at the left margin and lies between the top and the bottom
    margin of its page: the page break comes before a line would cross the
    bottom margin. *)
Theorem body_lines_stay_inside_margins
    (splitTextToSize : string -> Q -> list string)
    (files : list UploadedFile) (onProgress : bool) :
  let pageHeight := JsPDF.getHeight JsPDF.create in
  Forall (inPlace pageHeight)
    (collect bodyPosition
       (resultPages (Texts.convertTextToPDF splitTextToSize files onProgress)))
  /\ Forall (inPlace pageHeight)
       (collect bodyPosition
          (resultPages
             (Texts.convertWordToPDF splitTextToSize files onProgress))).
Proof.
  intros pageHeight. rewrite text_unfold, word_unfold.
  unfold resultPages. cbn [snd].
  split.
  - apply (drawn_keeps _ _
             (fun s => Forall (inPlace pageHeight)
                         (collect bodyPosition (JsPDF.output (fst s))))).
    + intros item text [pdf first] Hall. unfold Texts.drawText.
      pose proof (typeset_place pageHeight a4_has_room
                    (JsPDF.getWidth JsPDF.create) (name item)
                    (splitTextToSize text
                       (JsPDF.getWidth JsPDF.create - 2 * Texts.margin))
                    pdf first Hall) as H.
      cbv zeta in H. destruct (fold_left _ _ _) as [pdf' y']. exact H.
    + constructor.
  - apply (drawn_keeps _ _
             (fun s => Forall (inPlace pageHeight)
                         (collect bodyPosition (JsPDF.output (fst s))))).
    + intros item text [pdf first] Hall. unfold Texts.drawWord.
      pose proof (typeset_place pageHeight a4_has_room
                    (JsPDF.getWidth JsPDF.create) (name item)
                    (splitTextToSize
                       (substring 0 5000 (Texts.extractText item text))
                       (JsPDF.getWidth JsPDF.create - 2 * Texts.margin))
                    pdf first Hall) as H.
      cbv zeta in H. destruct (fold_left _ _ _) as [pdf' y']. exact H.
    + constructor.
Qed.

(** ** Every readable file opens a page *)

Lemma openers_app (a b : list JsPDF.Page) :
  openers (a ++ b) = openers a ++ openers b.
Proof. unfold openers. apply flat_map_app. Qed.

Lemma openers_output (pdf : JsPDF.jsPDF) :
  openers (JsPDF.output pdf)
  = openers (JsPDF.finished pdf) ++ opener (JsPDF.current pdf).
Proof.
  unfold JsPDF.output. rewrite openers_app. cbn. now rewrite app_nil_r.
Qed.

Lemma opener_snoc (page : JsPDF.Page) (d : JsPDF.Drawing) :
  page <> [] -> opener (page ++ [d]) = opener page.
Proof. destruct page as [|d0 page]; [congruence|reflexivity]. Qed.

Lemma draw_on_begun_page (d : JsPDF.Drawing) (pdf : JsPDF.jsPDF) :
  JsPDF.current pdf <> [] ->
  openers (JsPDF.output (JsPDF.draw d pdf)) = openers (JsPDF.output pdf)
  /\ JsPDF.current (JsPDF.draw d pdf) <> [].
Proof.
  intros Hbegun. rewrite !openers_output. cbn [JsPDF.draw JsPDF.finished
    JsPDF.current]. rewrite opener_snoc by assumption.
  split; [reflexivity|]. destruct (JsPDF.current pdf); discriminate.
Qed.

Lemma writeLine_opens_nothing (ph : Q) (pdf : JsPDF.jsPDF) (y : Q)
    (line : string) :
  JsPDF.fontSize pdf = 10 -> JsPDF.current pdf <> [] ->
  let s := Texts.writeLine ph (pdf, y) line in
  JsPDF.fontSize (fst s) = 10 /\ JsPDF.current (fst s) <> []
  /\ openers (JsPDF.output (fst s)) = openers (JsPDF.output pdf).
Proof.
  intros Hsize Hbegun. unfold Texts.writeLine.
  destruct (Qlt_le_dec (ph - Texts.margin) (y + Texts.lineHeight));
    cbn [fst snd]; unfold JsPDF.text.
  - split; [exact Hsize|]. split; [discriminate|].
    rewrite !openers_output.
    cbn [JsPDF.draw JsPDF.addPage JsPDF.finished JsPDF.current
         JsPDF.fontSize app opener].
    rewrite Hsize. change (Qeq_bool 10 16) with false. cbn iota.
    rewrite openers_app. cbn. now rewrite !app_nil_r.
  - destruct (draw_on_begun_page
                (JsPDF.Text line Texts.margin y (JsPDF.fontSize pdf)
                   (JsPDF.textColor pdf)) pdf Hbegun) as [Hop Hcur].
    split; [exact Hsize|]. split; assumption.
Qed.

Lemma writeLines_open_nothing (ph : Q) (lines : list string) : forall pdf y,
  JsPDF.fontSize pdf = 10 -> JsPDF.current pdf <> [] ->
  let s := fold_left (Texts.writeLine ph) lines (pdf, y) in
  JsPDF.current (fst s) <> []
  /\ openers (JsPDF.output (fst s)) = openers (JsPDF.output pdf).
Proof.
  induction lines as [|line rest IH]; intros pdf y Hsize Hbegun;
    cbn [fold_left]; [split; [exact Hbegun|reflexivity]|].
  destruct (writeLine_opens_nothing ph pdf y line Hsize Hbegun)
    as [Hs [Hc Ho]].
  destruct (Texts.writeLine ph (pdf, y) line) as [pdf' y'].
  cbn [fst snd] in *.
  destruct (IH pdf' y' Hs Hc) as [Hc' Ho']. split; [exact Hc'|].
  now rewrite Ho', Ho.
Qed.

Lemma typeset_opens_one (pw ph : Q) (heading : string) (lines : list string)
    (pdf : JsPDF.jsPDF) (isFirstPage : bool) :
  between (pdf, isFirstPage) ->
  let pdf1 := if negb isFirstPage then JsPDF.addPage pdf else pdf in
  let pdf2 := JsPDF.setFontSize 16 pdf1 in
  let pdf3 := JsPDF.setTextColor 0 0 0 pdf2 in
  let pdf4 := JsPDF.text heading Texts.margin (Texts.margin + 10) pdf3 in
  let pdf5 := JsPDF.setLineWidth (5 # 10) pdf4 in
  let pdf6 := JsPDF.line Texts.margin (Texts.margin + 15)
                (pw - Texts.margin) (Texts.margin + 15) pdf5 in
  let pdf7 := JsPDF.setFontSize 10 pdf6 in
  let s := fold_left (Texts.writeLine ph) lines (pdf7, Texts.margin + 25) in
  JsPDF.current (fst s) <> []
  /\ openers (JsPDF.output (fst s))
     = openers (JsPDF.output pdf) ++ [heading].
Proof.
  intros Hbetween pdf1 pdf2 pdf3 pdf4 pdf5 pdf6 pdf7.
  assert (Hbegun : JsPDF.current pdf7 <> []).
  { subst pdf7 pdf6 pdf5 pdf4 pdf3 pdf2.
    cbn. destruct (JsPDF.current pdf1); discriminate. }
  destruct (writeLines_open_nothing ph lines pdf7 (Texts.margin + 25)
              eq_refl Hbegun) as [Hcur Hop].
  split; [exact Hcur|]. cbv zeta in Hop. rewrite Hop.
  subst pdf7 pdf6 pdf5 pdf4 pdf3 pdf2.
  rewrite !openers_output.
  cbn [JsPDF.setFontSize JsPDF.setLineWidth JsPDF.setTextColor JsPDF.line
       JsPDF.text JsPDF.draw JsPDF.finished JsPDF.current JsPDF.fontSize].
  unfold between in Hbetween. cbn [fst snd] in Hbetween.
  subst pdf1. destruct isFirstPage; cbn [negb].
  - destruct Hbetween as [Hfin Hcurr]. rewrite Hfin, Hcurr. reflexivity.
  - cbn [JsPDF.addPage JsPDF.finished JsPDF.current app opener].
    change (Qeq_bool 16 16) with true. cbn iota.
    rewrite openers_app. cbn [openers flat_map]. rewrite !app_nil_r.
    reflexivity.
Qed.

Lemma drawn_opens {V : Type} (attempt : UploadedFile -> option V)
    (process : UploadedFile -> V -> JsPDF.jsPDF * bool -> JsPDF.jsPDF * bool)
    (Hprocess : forall item v s, between s ->
       between (process item v s)
       /\ openers (JsPDF.output (fst (process item v s)))
          = openers (JsPDF.output (fst s)) ++ [name item])
    (files : list UploadedFile) : forall s, between s ->
  openers (JsPDF.output (fst (drawn attempt process files s)))
  = openers (JsPDF.output (fst s))
    ++ map (fun entry => name (fst entry)) (successes attempt files).
Proof.
  unfold drawn.
  induction (successes attempt files) as [|[item v] rest IH]; intros s Hs;
    cbn [fold_left map fst snd].
  - now rewrite app_nil_r.
  - destruct (Hprocess item v s Hs) as [Hb Ho].
    rewrite (IH _ Hb), Ho, <- app_assoc. reflexivity.
Qed.

Lemma openers_count (pages : list JsPDF.Page) :
  (List.length (openers pages) <= List.length pages)%nat.
Proof.
  unfold openers. induction pages as [|page pages IH]; [cbn; lia|].
  cbn [flat_map]. rewrite length_app. cbn [List.length].
  assert (List.length (opener page) <= 1)%nat.
  { destruct page as [|[] page]; cbn; try lia.
    destruct (Qeq_bool _ _); cbn; lia. }
  lia.
Qed.

(** X8. In the documents [convertTextToPDF] and [convertWordToPDF] return,
    the pages that open with a title are those of the files that could be
    read, one each and in batch order, every title being the file's name:
    each readable file starts on a page of its own, and the document has at
    least as many pages as readable files. *)
Theorem readable_files_open_pages
    (splitTextToSize : string -> Q -> list string)
    (files : list UploadedFile) (onProgress : bool) :
  let readable := successes (fun f => contents (file f)) files in
  let text := Texts.convertTextToPDF splitTextToSize files onProgress in
  let word := Texts.convertWordToPDF splitTextToSize files onProgress in
  openers (resultPages text) = map (fun entry => name (fst entry)) readable
  /\ openers (resultPages word) = map (fun entry => name (fst entry)) readable
  /\ (List.length readable <= List.length (resultPages text))%nat
  /\ (List.length readable <= List.length (resultPages word))%nat.
Proof.
  intros readable text word.
  assert (Htext : openers (resultPages text)
                  = map (fun entry => name (fst entry)) readable).
  { subst text. rewrite text_unfold. unfold resultPages. cbn [snd].
    rewrite drawn_opens; [reflexivity| |split; reflexivity].
    intros item v [pdf first] Hs. unfold Texts.drawText.
    pose proof (typeset_opens_one (JsPDF.getWidth JsPDF.create)
                  (JsPDF.getHeight JsPDF.create) (name item)
                  (splitTextToSize v
                     (JsPDF.getWidth JsPDF.create - 2 * Texts.margin))
                  pdf first Hs) as H.
    cbv zeta in H. destruct (fold_left _ _ _) as [pdf' y'].
    cbn [fst snd] in *. exact H. }
  assert (Hword : openers (resultPages word)
                  = map (fun entry => name (fst entry)) readable).
  { subst word. rewrite word_unfold. unfold resultPages. cbn [snd].
    rewrite drawn_opens; [reflexivity| |split; reflexivity].
    intros item v [pdf first] Hs. unfold Texts.drawWord.
    pose proof (typeset_opens_one (JsPDF.getWidth JsPDF.create)
                  (JsPDF.getHeight JsPDF.create) (name item)
                  (splitTextToSize
                     (substring 0 5000 (Texts.extractText item v))
                     (JsPDF.getWidth JsPDF.create - 2 * Texts.margin))
                  pdf first Hs) as H.
    cbv zeta in H. destruct (fold_left _ _ _) as [pdf' y'].
    cbn [fst snd] in *. exact H. }
  repeat split; try assumption.
  - rewrite <- (length_map (fun entry => name (fst entry)) readable), <- Htext.
    apply openers_count.
  - rewrite <- (length_map (fun entry => name (fst entry)) readable), <- Hword.
    apply openers_count.
Qed.

(** ** The text taken out of a Word file *)

Lemma readable_glyph (c : ascii) :
  Texts.readable c = true -> Texts.whitespace c = false -> glyph c.
Proof.
  destruct c as [[] [] [] [] [] [] [] []]; vm_compute;
    intros; try discriminate; split; lia.
Qed.

Lemma glyph_not_whitespace (c : ascii) :
  glyph c -> Texts.whitespace c = false.
Proof.
  destruct c as [[] [] [] [] [] [] [] []]; vm_compute;
    intros [? ?]; try reflexivity; lia.
Qed.

Lemma space_is_readable : Texts.readable " " = true.
Proof. reflexivity. Qed.

Lemma blanked_readable (c : ascii) :
  Texts.readable (if Texts.readable c then c else " "%char) = true.
Proof. destruct (Texts.readable c) eqn:E; [exact E|reflexivity]. Qed.

Lemma collapse_tidy (raw : string) :
  Tidy (Texts.collapseWhitespace (Texts.blankUnreadable raw)).
Proof.
  induction raw as [|c raw IH]; [constructor|].
  cbn [Texts.blankUnreadable].
  set (c1 := if Texts.readable c then c else " "%char).
  assert (Hc1 : Texts.readable c1 = true) by apply blanked_readable.
  cbn [Texts.collapseWhitespace].
  destruct (Texts.whitespace c1) eqn:Hws1.
  - destruct raw as [|d raw]; [constructor|].
    cbn [Texts.blankUnreadable] in *.
    set (c2 := if Texts.readable d then d else " "%char) in *.
    assert (Hc2 : Texts.readable c2 = true) by apply blanked_readable.
    destruct (Texts.whitespace c2) eqn:Hws2; [exact IH|].
    cbn [Texts.collapseWhitespace] in *. rewrite Hws2 in *.
    apply tidy_space; [apply readable_glyph; assumption|exact IH].
  - apply tidy_glyph; [apply readable_glyph; assumption|exact IH].
Qed.

Lemma trimStart_tidy (s : string) :
  Tidy s -> Tidy (Texts.trimStart s) /\ startsWithGlyph (Texts.trimStart s).
Proof.
  induction 1 as [| |c rest Hc Hrest IH|c rest Hc Hrest IH].
  - split; constructor.
  - split; constructor.
  - cbn [Texts.trimStart]. change (Texts.whitespace " ") with true.
    cbn iota. rewrite (glyph_not_whitespace c Hc).
    split; [exact Hrest|exact Hc].
  - cbn [Texts.trimStart]. rewrite (glyph_not_whitespace c Hc).
    split; [apply tidy_glyph; assumption|exact Hc].
Qed.

Lemma trimEnd_glyph (c : ascii) (rest : string) :
  glyph c ->
  Texts.trimEnd (String c rest) = String c (Texts.trimEnd rest).
Proof.
  intros Hc. cbn [Texts.trimEnd]. rewrite (glyph_not_whitespace c Hc).
  destruct (Texts.trimEnd rest); reflexivity.
Qed.

Lemma trimEnd_inner (s : string) : Tidy s -> Inner (Texts.trimEnd s).
Proof.
  induction 1 as [| |c rest Hc Hrest IH|c rest Hc Hrest IH].
  - constructor.
  - constructor.
  - rewrite (trimEnd_glyph c rest Hc) in IH.
    change (Texts.trimEnd (String " " (String c rest)))
      with (match Texts.trimEnd (String c rest) with
            | EmptyString =>
                if Texts.whitespace " " then EmptyString
                else String " " EmptyString
            | String a b => String " " (String a b)
            end).
    rewrite (trimEnd_glyph c rest Hc). apply inner_space; assumption.
  - rewrite (trimEnd_glyph c rest Hc). apply inner_glyph; assumption.
Qed.

Lemma trimEnd_start (s : string) :
  startsWithGlyph s -> startsWithGlyph (Texts.trimEnd s).
Proof.
  destruct s as [|c rest]; [trivial|]. cbn [startsWithGlyph]. intros Hc.
  rewrite (trimEnd_glyph c rest Hc). exact Hc.
Qed.

Lemma blankUnreadable_length (s : string) :
  String.length (Texts.blankUnreadable s) = String.length s.
Proof. induction s as [|c s IH]; cbn; [reflexivity|now rewrite IH]. Qed.

Lemma collapseWhitespace_length (s : string) :
  (String.length (Texts.collapseWhitespace s) <= String.length s)%nat.
Proof.
  induction s as [|c s IH]; [cbn; lia|].
  cbn [Texts.collapseWhitespace].
  destruct (Texts.whitespace c).
  - destruct s as [|d s]; [cbn; lia|].
    destruct (Texts.whitespace d); cbn [String.length] in *; lia.
  - cbn [String.length]. lia.
Qed.

Lemma trimStart_length (s : string) :
  (String.length (Texts.trimStart s) <= String.length s)%nat.
Proof.
  induction s as [|c s IH]; [cbn; lia|]. cbn [Texts.trimStart].
  destruct (Texts.whitespace c); cbn [String.length]; lia.
Qed.

Lemma trimEnd_length (s : string) :
  (String.length (Texts.trimEnd s) <= String.length s)%nat.
Proof.
  induction s as [|c s IH]; [cbn; lia|]. cbn [Texts.trimEnd].
  destruct (Texts.trimEnd s) as [|a b].
  - destruct (Texts.whitespace c); cbn; lia.
  - cbn [String.length] in *. lia.
Qed.

Lemma glyph_is_not_space (c : ascii) : glyph c -> c <> " "%char.
Proof. intros [H _] ->. vm_compute in H. lia. Qed.

Lemma inner_chars (s : string) : Inner s ->
  forall i c, get i s = Some c -> (32 <= nat_of_ascii c <= 126)%nat.
Proof.
  induction 1 as [|c rest Hc Hrest IH|c rest Hc Hrest IH]; intros i a Hget.
  - discriminate.
  - destruct i as [|i]; cbn [get] in Hget.
    + injection Hget as <-. vm_compute. lia.
    + apply (IH i a Hget).
  - destruct i as [|i]; cbn [get] in Hget.
    + injection Hget as <-. unfold glyph in Hc. lia.
    + apply (IH i a Hget).
Qed.

Lemma inner_spaces (s : string) : Inner s ->
  forall i, get i s = Some " "%char ->
  exists c, get (S i) s = Some c /\ c <> " "%char.
Proof.
  induction 1 as [|c rest Hc Hrest IH|c rest Hc Hrest IH]; intros i Hget.
  - discriminate.
  - destruct i as [|i]; cbn [get] in Hget |- *.
    + exists c. split; [reflexivity|apply glyph_is_not_space, Hc].
    + apply (IH i Hget).
  - destruct i as [|i]; cbn [get] in Hget.
    + injection Hget as ->. exfalso. now apply (glyph_is_not_space " "%char).
    + apply (IH i Hget).
Qed.

(** X9. The text [convertWordToPDF] takes out of a file that looks like a
    Word file is one line of printable ASCII: every character lies between
    the space and the tilde, the text does not start with a space, every
    space is followed by a character that is not a space (so there is no
    double space and none at the end), and the text is no longer than what
    was read. *)
Theorem word_text_is_one_clean_line (item : UploadedFile) (rawText : string) :
  looksLikeWord item = true ->
  let text := Texts.extractText item rawText in
  (forall i c, get i text = Some c -> (32 <= nat_of_ascii c <= 126)%nat)
  /\ get 0 text <> Some " "%char
  /\ (forall i, get i text = Some " "%char ->
        exists c, get (S i) text = Some c /\ c <> " "%char)
  /\ (String.length text <= String.length rawText)%nat.
Proof.
  intros Hword text. subst text. unfold Texts.extractText.
  unfold looksLikeWord in Hword. rewrite Hword. unfold Texts.trim.
  pose proof (collapse_tidy rawText) as Htidy.
  destruct (trimStart_tidy _ Htidy) as [Htidy' Hstart].
  pose proof (trimEnd_inner _ Htidy') as Hinner.
  pose proof (trimEnd_start _ Hstart) as Hstart'.
  set (text := Texts.trimEnd _) in *.
  split; [|split; [|split]].
  - apply (inner_chars text Hinner).
  - destruct text as [|c rest]; [discriminate|].
    cbn [startsWithGlyph get] in *. intros [= ->].
    now apply (glyph_is_not_space " "%char).
  - apply (inner_spaces text Hinner).
  - subst text.
    pose proof (trimEnd_length
                  (Texts.trimStart
                     (Texts.collapseWhitespace
                        (Texts.blankUnreadable rawText)))).
    pose proof (trimStart_length
                  (Texts.collapseWhitespace (Texts.blankUnreadable rawText))).
    pose proof (collapseWhitespace_length (Texts.blankUnreadable rawText)).
    rewrite blankUnreadable_length in *. lia.
Qed.

(** Bytes of a .docx file: control characters, line ends and runs of
    spaces. *)
Lemma word_text_is_one_clean_line_witness :
  Texts.extractText
    (upload "letter.docx" (textFile "application/octet-stream" ""))
    (String (ascii_of_nat 3) "  Dear   Sir," ++ String (ascii_of_nat 10) ""
     ++ String (ascii_of_nat 200) "yours " ++ String (ascii_of_nat 0) "")
  = "Dear Sir, yours"%string
  /\ get 0 "Dear Sir, yours" <> Some " "%char.
Proof.
  split; [reflexivity|].
  apply (word_text_is_one_clean_line
           (upload "letter.docx" (textFile "application/octet-stream" ""))
           (String (ascii_of_nat 3) "  Dear   Sir,"
            ++ String (ascii_of_nat 10) ""
            ++ String (ascii_of_nat 200) "yours "
            ++ String (ascii_of_nat 0) "")).
  reflexivity.
Defined.

(** * Properties of the pages around the conversion *)

(** ** The catalog *)

(** X10. Of the eight features of the catalog only "images-to-pdf" can be
    selected: [handleFeatureClick] ignores every other one, among them the
    four whose strategies [convertByFeature] does implement.  The
    identifiers of the catalog are all different. *)
Theorem only_images_can_be_selected :
  Forall (fun feature =>
            FeatureSelector.handleFeatureClick feature
            = if (FeatureSelector.id feature =? "images-to-pdf")%string
              then Some (FeatureSelector.id feature, feature)
              else None)
         FeatureSelector.conversionFeatures
  /\ NoDup (map FeatureSelector.id FeatureSelector.conversionFeatures)
  /\ Forall (fun featureId =>
               exists feature,
                 In feature FeatureSelector.conversionFeatures
                 /\ FeatureSelector.id feature = featureId
                 /\ FeatureSelector.handleFeatureClick feature = None)
            ["text-to-pdf"; "merge-pdfs"; "split-pdf"; "word-to-pdf"]%string.
Proof.
  split; [repeat constructor|]. split.
  - repeat constructor; cbn; intros H;
      repeat (destruct H as [H|H]; [discriminate H|]); exact H.
  - pose (pick k := nth k FeatureSelector.conversionFeatures imagesFeature).
    apply Forall_cons; [exists (pick 4%nat)|].
    2: apply Forall_cons; [exists (pick 5%nat)|].
    3: apply Forall_cons; [exists (pick 6%nat)|].
    4: apply Forall_cons; [exists (pick 2%nat)|apply Forall_nil].
    all: split; [cbn; auto 10|split; reflexivity].
Qed.

(** ** The uploader's list of files *)

Section Uploading.

Variable formatFileSize : N -> string.
Variable randomId : nat -> string.
Variable feature : FeatureSelector.ConversionFeature.

Lemma includesString_In (l : list string) (s : string) :
  includesString l s = true -> In s l.
Proof.
  unfold includesString. intros H. apply existsb_exists in H.
  destruct H as [x [Hin Heq]]. apply String.eqb_eq in Heq. now subst x.
Qed.

Lemma processFile_cases (newFiles : list UploadedFile) (toasts : list Toast)
    (f : DomFile.t) :
  let next := FileUploader.processFile formatFileSize randomId feature
                (newFiles, toasts) f in
  if accepted feature f
  then exists u,
         next = (newFiles ++ [u], toasts)
         /\ name u = DomFile.name f /\ file u = DomFile.blob f
         /\ id u = randomId (List.length newFiles)
         /\ In (type u) (FileUploader.acceptedExtensions feature)
  else exists toast, next = (newFiles, toasts ++ [toast]).
Proof.
  unfold accepted, FileUploader.processFile.
  destruct (includesString _ _) eqn:Hext; cbn [negb andb].
  - rewrite N.leb_antisym.
    destruct (50 * 1024 * 1024 <? DomFile.size f)%N; cbn [negb].
    + eexists; reflexivity.
    + eexists. split; [reflexivity|]. cbn.
      repeat split. apply includesString_In, Hext.
  - eexists; reflexivity.
Qed.

Lemma processFiles_loop (fileList : list DomFile.t) :
  forall newFiles toasts,
  exists added rejections,
    fold_left (FileUploader.processFile formatFileSize randomId feature)
              fileList (newFiles, toasts)
    = (newFiles ++ added, toasts ++ rejections)
    /\ map name added
       = map DomFile.name (filter (accepted feature) fileList)
    /\ map file added
       = map DomFile.blob (filter (accepted feature) fileList)
    /\ map id added
       = map randomId
           (seq (List.length newFiles)
                (List.length (filter (accepted feature) fileList)))
    /\ Forall (fun u => In (type u) (FileUploader.acceptedExtensions feature))
              added
    /\ (List.length rejections
        + List.length (filter (accepted feature) fileList)
        = List.length fileList)%nat.
Proof.
  induction fileList as [|f rest IH]; intros newFiles toasts.
  - exists [], []. cbn. rewrite !app_nil_r. repeat split. constructor.
  - cbn [fold_left filter].
    pose proof (processFile_cases newFiles toasts f) as Hcase.
    cbv zeta in Hcase.
    destruct (accepted feature f).
    + destruct Hcase as [u [-> [Hname [Hfile [Hid Htype]]]]].
      destruct (IH (newFiles ++ [u]) toasts)
        as [added [rejections [Hrun [Hn [Hf [Hi [Ht Hl]]]]]]].
      exists (u :: added), rejections. rewrite Hrun, <- app_assoc.
      cbn [app map List.length seq].
      rewrite Hname, Hfile, Hid, Hn, Hf, Hi, length_app. cbn [List.length].
      rewrite Nat.add_1_r.
      repeat split; [constructor; assumption|lia].
    + destruct Hcase as [toast ->].
      destruct (IH newFiles (toasts ++ [toast]))
        as [added [rejections [Hrun [Hn [Hf [Hi [Ht Hl]]]]]]].
      exists added, (toast :: rejections). rewrite Hrun, <- app_assoc.
      cbn [app List.length]. repeat split; try assumption. lia.
Qed.

(** X11. [processFiles] adds to the end of the list, in the order they
    were picked, exactly the files whose extension is one of the feature's
    input types (in any letter case) and whose size is at most 50 MB; the
    files already listed stay where they are.  Each file added carries its
    name, its data and a fresh identifier, and the number of toasts is the
    number of files turned down, plus one when a file was added. *)
Theorem processFiles_adds_the_accepted (fileList : list DomFile.t)
    (prev : list UploadedFile) :
  let okFiles := filter (accepted feature) fileList in
  exists added toasts,
    FileUploader.processFiles formatFileSize randomId feature fileList prev
    = (prev ++ added, toasts)
    /\ map name added = map DomFile.name okFiles
    /\ map file added = map DomFile.blob okFiles
    /\ map id added = map randomId (seq 0 (List.length okFiles))
    /\ Forall (fun u => In (type u) (FileUploader.acceptedExtensions feature))
              added
    /\ List.length toasts
       = (List.length fileList - List.length okFiles
          + if (0 <? List.length okFiles)%nat then 1 else 0)%nat.
Proof.
  intros okFiles. unfold FileUploader.processFiles.
  destruct (processFiles_loop fileList [] [])
    as [added [rejections [Hrun [Hn [Hf [Hi [Ht Hl]]]]]]].
  rewrite Hrun. cbn [app List.length] in *.
  eexists. eexists. split; [reflexivity|].
  fold okFiles in Hn, Hf, Hi, Hl.
  assert (Hlen : List.length added = List.length okFiles).
  { rewrite <- (length_map name added), Hn. apply length_map. }
  repeat split; try assumption.
  rewrite length_app, Hlen.
  destruct (0 <? List.length okFiles)%nat; cbn [List.length]; lia.
Qed.

End Uploading.

Lemma filter_keeps_order {A : Type} (p : A -> bool) (l : list A) :
  forall i j f g, (i < j)%nat ->
    nth_error (filter p l) i = Some f -> nth_error (filter p l) j = Some g ->
    exists i' j', (i' < j')%nat
                  /\ nth_error l i' = Some f /\ nth_error l j' = Some g.
Proof.
  induction l as [|a l IH]; intros i j f g Hij Hf Hg.
  - destruct i; discriminate.
  - cbn [filter] in Hf, Hg. destruct (p a).
    + destruct j as [|j]; [lia|]. cbn [nth_error] in Hg.
      destruct i as [|i]; cbn [nth_error] in Hf.
      * injection Hf as <-.
        apply nth_error_In, filter_In in Hg. destruct Hg as [Hg _].
        apply In_nth_error in Hg. destruct Hg as [j' Hj'].
        exists 0%nat, (S j'). repeat split; [lia|exact Hj'].
      * destruct (IH i j f g ltac:(lia) Hf Hg) as [i' [j' [Hlt [Hi Hj]]]].
        exists (S i'), (S j'). repeat split; [lia|assumption|assumption].
    + destruct (IH i j f g Hij Hf Hg) as [i' [j' [Hlt [Hi Hj]]]].
      exists (S i'), (S j'). repeat split; [lia|assumption|assumption].
Qed.

(** X12. [removeFile] keeps, in their order, exactly the files with
    another identifier.  It changes nothing when no file has the
    identifier, takes out one file when the identifiers are all different,
    and revokes at most the preview of one file that has the identifier. *)
Theorem removeFile_takes_out_the_id (removedId : string)
    (prev : list UploadedFile) :
  let files := fst (FileUploader.removeFile removedId prev) in
  let revoked := snd (FileUploader.removeFile removedId prev) in
  (forall f, In f files <-> In f prev /\ id f <> removedId)
  /\ (exists gone, Permutation prev (gone ++ files)
                   /\ Forall (fun f => id f = removedId) gone)
  /\ (forall i j f g, (i < j)%nat ->
        nth_error files i = Some f -> nth_error files j = Some g ->
        exists i' j', (i' < j')%nat /\ nth_error prev i' = Some f
                      /\ nth_error prev j' = Some g)
  /\ (~ In removedId (map id prev) -> files = prev /\ revoked = None)
  /\ (NoDup (map id prev) -> In removedId (map id prev) ->
      S (List.length files) = List.length prev)
  /\ (forall f, revoked = Some f ->
        In f prev /\ id f = removedId /\ preview f <> None).
Proof.
  intros files revoked. subst files revoked.
  unfold FileUploader.removeFile. cbn [fst snd].
  split; [|split; [|split; [|split; [|split]]]].
  - intros f. rewrite filter_In. split; intros [Hin Hid]; split; try assumption.
    + intros Heq. apply String.eqb_eq in Heq. now rewrite Heq in Hid.
    + destruct (String.eqb_spec (id f) removedId); [contradiction|reflexivity].
  - exists (filter (fun f => (id f =? removedId)%string) prev). split.
    + induction prev as [|f rest IH]; [constructor|]. cbn [filter].
      destruct (id f =? removedId)%string; cbn [negb app].
      * now constructor.
      * apply Permutation_cons_app. exact IH.
    + apply Forall_forall. intros f Hf. apply filter_In in Hf.
      now apply String.eqb_eq.
  - apply filter_keeps_order.
  - intros Habsent. split.
    + induction prev as [|f rest IH]; [reflexivity|]. cbn [filter].
      destruct (String.eqb_spec (id f) removedId) as [Heq|Hne].
      * exfalso. apply Habsent. left. exact Heq.
      * cbn [negb]. f_equal. apply IH. intros H. apply Habsent. now right.
    + destruct (find _ prev) as [f|] eqn:Hfind; [|reflexivity].
      apply find_some in Hfind. destruct Hfind as [Hin Heq].
      apply String.eqb_eq in Heq. exfalso. apply Habsent.
      apply in_map_iff. now exists f.
  - induction prev as [|f rest IH]; intros Hnodup Hin; [contradiction|].
    cbn [map] in Hnodup. inversion Hnodup as [|? ? Hfresh Hrest]; subst.
    cbn [filter List.length].
    destruct (String.eqb_spec (id f) removedId) as [Heq|Hne]; cbn [negb].
    + f_equal. f_equal. rewrite Heq in Hfresh. clear - Hfresh.
      induction rest as [|g rest IH]; [reflexivity|]. cbn [filter].
      destruct (String.eqb_spec (id g) removedId) as [Heq|Hne].
      * exfalso. apply Hfresh. left. exact Heq.
      * cbn [negb]. f_equal. apply IH. intros H. apply Hfresh. now right.
    + cbn [List.length]. f_equal. apply IH; [assumption|].
      destruct Hin as [Hin|Hin]; [contradiction|assumption].
  - intros f Hrev.
    destruct (find _ prev) as [g|] eqn:Hfind; [|discriminate].
    apply find_some in Hfind. destruct Hfind as [Hin Heq].
    apply String.eqb_eq in Heq.
    destruct (preview g) eqn:Hprev; [|discriminate].
    injection Hrev as <-. repeat split; try assumption. now rewrite Hprev.
Qed.

Lemma spliceOut_one {A : Type} (l : list A) (k : nat) (x : A) :
  nth_error l k = Some x ->
  FileUploader.spliceOut k 1 l
  = (firstn k l ++ skipn (S k) l, [x])
  /\ Permutation l (x :: firstn k l ++ skipn (S k) l)
  /\ S (List.length (firstn k l ++ skipn (S k) l)) = List.length l.
Proof.
  intros Hx. unfold FileUploader.spliceOut.
  rewrite Nat.add_1_r, (skipn_nth_error l k x Hx). cbn [firstn].
  split; [reflexivity|].
  pose proof (firstn_skipn k l) as Hsplit.
  rewrite (skipn_nth_error l k x Hx) in Hsplit.
  split.
  - rewrite <- Hsplit at 1. symmetry. apply Permutation_middle.
  - rewrite <- Hsplit at 3. rewrite !length_app. cbn [List.length]. lia.
Qed.

Lemma spliceIn_places {A : Type} (l : list A) (k : nat) (x : A) :
  Permutation (x :: l) (FileUploader.spliceIn k x l)
  /\ nth_error (FileUploader.spliceIn k x l) (Nat.min k (List.length l))
     = Some x.
Proof.
  unfold FileUploader.spliceIn. split.
  - rewrite <- (firstn_skipn k l) at 1. apply Permutation_middle.
  - rewrite nth_error_app2 by (rewrite length_firstn; lia).
    rewrite length_firstn, Nat.sub_diag. reflexivity.
Qed.

Lemma spliceIn_map {A B : Type} (f : A -> B) (l : list A) (k : nat) (x : A) :
  FileUploader.spliceIn k (f x) (map f l)
  = map f (FileUploader.spliceIn k x l).
Proof.
  unfold FileUploader.spliceIn.
  now rewrite map_app, firstn_map, skipn_map.
Qed.

(** X13. When [oldIndex] points at a file, [onSortEnd] only reorders the
    list: no entry is lost, doubled or left undefined, and the file that
    was at [oldIndex] ends up at [newIndex], or at the last place when
    [newIndex] lies beyond it. *)
Theorem onSortEnd_moves_one_file (oldIndex newIndex : nat)
    (prev : list UploadedFile) (moved : UploadedFile) :
  nth_error prev oldIndex = Some moved ->
  exists files,
    FileUploader.onSortEnd oldIndex newIndex prev = map Some files
    /\ Permutation prev files
    /\ nth_error files (Nat.min newIndex (List.length prev - 1))
       = Some moved.
Proof.
  intros Hmoved. unfold FileUploader.onSortEnd.
  destruct (spliceOut_one prev oldIndex moved Hmoved) as [_ [Hperm Hlen]].
  assert (Hsome : nth_error (map Some prev) oldIndex = Some (Some moved))
    by (rewrite nth_error_map, Hmoved; reflexivity).
  destruct (spliceOut_one (map Some prev) oldIndex (Some moved) Hsome)
    as [-> _].
  cbn [hd]. rewrite firstn_map, skipn_map, <- map_app, spliceIn_map.
  set (others := firstn oldIndex prev ++ skipn (S oldIndex) prev) in *.
  destruct (spliceIn_places others newIndex moved) as [Hperm' Hat].
  eexists. split; [reflexivity|]. split.
  - now rewrite Hperm.
  - replace (List.length prev - 1)%nat with (List.length others) by lia.
    exact Hat.
Qed.

(** Dragging the first of three files to the last place. *)
Lemma onSortEnd_moves_one_file_witness :
  exists files,
    FileUploader.onSortEnd 0 2
      [upload "a" imageFile; upload "b" imageFile; upload "c" imageFile]
    = map Some files
    /\ Permutation
         [upload "a" imageFile; upload "b" imageFile; upload "c" imageFile]
         files
    /\ nth_error files 2 = Some (upload "a" imageFile).
Proof.
  apply (onSortEnd_moves_one_file 0 2
           [upload "a" imageFile; upload "b" imageFile;
            upload "c" imageFile] (upload "a" imageFile)).
  reflexivity.
Defined.

(** X14. When [oldIndex] points past the end of the list, [onSortEnd]
    takes nothing out and yet puts something in: the list comes out one
    entry longer, with an undefined entry in it. *)
Theorem onSortEnd_past_the_end (oldIndex newIndex : nat)
    (prev : list UploadedFile) :
  (List.length prev <= oldIndex)%nat ->
  FileUploader.onSortEnd oldIndex newIndex prev
  = FileUploader.spliceIn newIndex None (map Some prev)
  /\ List.length (FileUploader.onSortEnd oldIndex newIndex prev)
     = S (List.length prev)
  /\ In None (FileUploader.onSortEnd oldIndex newIndex prev).
Proof.
  intros Hpast. unfold FileUploader.onSortEnd, FileUploader.spliceOut.
  assert (Hlen : (List.length (map Some prev) <= oldIndex)%nat)
    by (rewrite length_map; exact Hpast).
  rewrite (firstn_all2 (map Some prev) Hlen).
  rewrite (skipn_all2 (map Some prev) Hlen).
  rewrite (skipn_all2 (n := oldIndex + 1) (map Some prev)) by lia.
  cbn [firstn hd]. rewrite app_nil_r.
  split; [reflexivity|]. unfold FileUploader.spliceIn. split.
  - rewrite length_app. cbn [List.length].
    rewrite <- (length_map (@Some UploadedFile) prev).
    rewrite <- (firstn_skipn newIndex (map Some prev)) at 3.
    rewrite length_app. lia.
  - apply in_or_app. right. left. reflexivity.
Qed.

(** An index one past the last of two files. *)
Lemma onSortEnd_past_the_end_witness :
  FileUploader.onSortEnd 2 0 [upload "a" imageFile; upload "b" imageFile]
  = [None; Some (upload "a" imageFile); Some (upload "b" imageFile)].
Proof.
  apply (onSortEnd_past_the_end 2 0
           [upload "a" imageFile; upload "b" imageFile]).
  cbn. lia.
Defined.

(** ** Running the one feature that can be selected *)

Lemma drawn_cons {V D : Type} (attempt : UploadedFile -> option V)
    (process : UploadedFile -> V -> D -> D) (item : UploadedFile)
    (rest : list UploadedFile) (d : D) :
  drawn attempt process (item :: rest) d
  = drawn attempt process rest
      match attempt item with
      | Some v => process item v d
      | None => d
      end.
Proof.
  unfold drawn, successes. cbn [flat_map].
  destruct (attempt item); reflexivity.
Qed.

Lemma drawImage_page (pw ph : Q) (item : UploadedFile) (img : HTMLImage)
    (pdf : JsPDF.jsPDF) (first : bool) :
  let s := Images.drawImage pw ph item img (pdf, first) in
  if Images.survivesCanvas (img_embedding img)
  then snd s = false
       /\ List.length (JsPDF.output (fst s))
          = (List.length (JsPDF.output pdf) + if first then 0 else 1)%nat
  else s = (pdf, first).
Proof.
  unfold Images.drawImage, JsPDF.output.
  destruct (img_embedding img), first; cbn; rewrite ?length_app; cbn;
    try reflexivity; split; try reflexivity; lia.
Qed.

Lemma images_pages_made (pw ph : Q) (files : list UploadedFile) :
  forall pdf first,
  List.length
    (JsPDF.output
       (fst (drawn Images.loadImage (Images.drawImage pw ph) files
               (pdf, first))))
  = (List.length (JsPDF.output pdf)
     + List.length (filter Images.reachesPage files)
     - if first && (0 <? List.length (filter Images.reachesPage files))%nat
       then 1 else 0)%nat.
Proof.
  induction files as [|item rest IH]; intros pdf first.
  - cbn. destruct first; cbn; lia.
  - rewrite drawn_cons. cbn [filter].
    destruct (Images.loadImage item) as [img|] eqn:Hload.
    2:{ assert (Hr : Images.reachesPage item = false)
          by (unfold Images.reachesPage; now rewrite Hload).
        rewrite Hr. apply IH. }
    assert (Hr : Images.reachesPage item
                 = Images.survivesCanvas (img_embedding img))
      by (unfold Images.reachesPage; now rewrite Hload).
    rewrite Hr.
    pose proof (drawImage_page pw ph item img pdf first) as Hstep.
    cbv zeta in Hstep.
    destruct (Images.survivesCanvas (img_embedding img)).
    + destruct (Images.drawImage pw ph item img (pdf, first))
        as [pdf' first'].
      cbn [fst snd] in Hstep. destruct Hstep as [-> Hlen].
      rewrite IH, Hlen. cbn [List.length andb].
      assert (1 <= List.length (JsPDF.output pdf))%nat
        by apply output_has_a_page.
      destruct first; cbn; lia.
    + rewrite Hstep. apply IH.
Qed.

Lemma images_page_count (files : list UploadedFile) (onProgress : bool) :
  exists pages,
    snd (Images.convertImagesToPDF files onProgress)
    = Returned (JsPdfBlob pages)
    /\ List.length pages
       = Nat.max 1 (List.length (filter Images.reachesPage files)).
Proof.
  rewrite images_unfold. cbn [snd]. eexists. split; [reflexivity|].
  rewrite images_pages_made. cbn [JsPDF.output JsPDF.create List.length app
    JsPDF.finished JsPDF.current andb].
  destruct (List.length (filter Images.reachesPage files)); cbn; lia.
Qed.

(** X15. With "images-to-pdf" selected, [handleConvert] of the page always
    ends in a download and the toast of success, never in the toast of
    failure: also when some or all images could not be decoded or
    embedded.  The file is named after the feature and the day, the
    document has one page per image whose turn got as far as its page (one
    blank page when there is none), the toast counts the files of the
    batch, not the pages, and the failures, one message per item whose
    turn threw, only reach the console. *)
Theorem images_always_download
    (splitTextToSize : string -> Q -> list string)
    (formattedSize : Blob -> string) (timestamp : string)
    (files : list UploadedFile) :
  let shown := Index.handleConvert splitTextToSize formattedSize timestamp
                 (Some imagesFeature) files in
  exists blob,
    Index.downloads shown
    = [(blob, ("images-to-pdf-" ++ timestamp ++ ".pdf")%string)]
    /\ pageCount blob
       = Nat.max 1 (List.length (filter Images.reachesPage files))
    /\ Index.toasts shown
       = [ {| title := "Conversion completed successfully!";
              description :=
                ("Your PDF with " ++ toString (List.length files)
                 ++ " file(s) is ready for download.")%string;
              variant := "default" |} ]
    /\ Index.console shown
       = map (fun item =>
                "Error processing image " ++ name item ++ ":")%string
             (filter (fun item => negb (Images.completes item)) files).
Proof.
  intros shown. subst shown. unfold Index.handleConvert.
  change (convertByFeature splitTextToSize
            (FeatureSelector.id imagesFeature) files true)
    with (Images.convertImagesToPDF files true).
  destruct (images_page_count files true) as [pages [Hrun Hcount]].
  rewrite images_unfold in Hrun |- *. cbn [snd] in Hrun.
  injection Hrun as Hpages. rewrite Hpages.
  exists (JsPdfBlob pages). repeat split. exact Hcount.
Qed.

(** ** The first converter *)

Lemma forEachIndexed_map {A B St : Type} (f : A -> B)
    (body : nat -> A -> St -> St) (body' : nat -> B -> St -> St)
    (Hsame : forall i a s, body i a s = body' i (f a) s) (l : list A) :
  forall i s,
    forEachIndexed body i l s = forEachIndexed body' i (map f l) s.
Proof.
  induction l as [|a l IH]; intros i s; cbn [forEachIndexed map];
    [reflexivity|]. now rewrite Hsame, IH.
Qed.

(** X16. The converter of the image-only page and [convertImagesToPDF] of
    the feature pages agree: on the same images, taken from their preview
    URLs, they report the same progress, log the same messages and return
    the same document. *)
Theorem first_converter_agrees (images : list PdfConverter.ImageFile)
    (onProgress : bool) :
  PdfConverter.convertImagesToPDF images onProgress
  = Images.convertImagesToPDF (map asUploadedFile images) onProgress.
Proof.
  unfold PdfConverter.convertImagesToPDF, Images.convertImagesToPDF.
  rewrite length_map.
  rewrite (forEachIndexed_map asUploadedFile _
             (Images.body onProgress (List.length images)
                (JsPDF.getWidth JsPDF.create)
                (JsPDF.getHeight JsPDF.create))).
  - reflexivity.
  - intros i image [[pdf first] fx].
    unfold PdfConverter.body, Images.body, Images.loadImage,
      Images.drawImage. cbn [asUploadedFile preview name].
    destruct (PdfConverter.preview image) as [img|]; [|reflexivity].
    destruct (img_embedding img); reflexivity.
Qed.
